(** * Lively Pi: the wallpaper library and the wallpaper manager

    A shallow embedding of [src/lively_pi.py]: the [WallpaperLibrary]
    (a JSON-backed list of [WallpaperConfig] records) and the
    [WallpaperManager] (a list of tracked child processes), together with
    the properties the specification states about them.

    Modelling conventions.
    - A Python [str] is a Rocq [string]; a character is a code point below
      256, so the model covers the Latin-1 part of Unicode.
    - The Python values that can sit in a record or in a loaded JSON
      document are the type [pyval]; floats are left out.  The library
      file is modelled by the JSON document it holds, not by its text.
    - A Python function is a program of type [M]: it runs on a [state],
      which holds the list of the library, the list of the manager, the
      library file and the trace of what was printed and asked of the
      operating system, and it ends normally or by raising.
    - The operating system (the file tests, the external tools, the
      signals) is an oracle [env] whose answers may depend on the whole
      state.  Reading and writing the library file and [print] are taken
      to succeed; [pathlib] is the POSIX flavour. *)

From Stdlib Require Import List String Ascii ZArith NArith Bool Lia.
Import ListNotations.
Open Scope string_scope.
Set Warnings "-register-all".

(* ------------------------------------------------------------------ *)
(** * Python strings *)

Module PyStr.

(** [len(s)] as a Python integer. *)
Definition len (s : string) : Z := Z.of_nat (String.length s).

(** [str.lower] on one character.  Below code point 256 the characters
    with a different lower case are [A-Z] and [U+00C0 .. U+00DE] without
    the multiplication sign [U+00D7]; each maps 32 places up. *)
Definition lower_char (c : ascii) : ascii :=
  let n := N_of_ascii c in
  if ((65 <=? n) && (n <=? 90))%N
     || ((192 <=? n) && (n <=? 222) && negb (n =? 215))%N
  then ascii_of_N (n + 32)
  else c.

(** [s.lower()] *)
Fixpoint lower (s : string) : string :=
  match s with
  | EmptyString => EmptyString
  | String c s' => String (lower_char c) (lower s')
  end.

(** [s.startswith(p)] *)
Definition startswith (s p : string) : bool := String.prefix p s.

(** [s.split(sep)] for a one-character separator: never empty, and
    [sep.join(s.split(sep)) == s]. *)
Fixpoint split (sep : ascii) (s : string) : list string :=
  match s with
  | EmptyString => [EmptyString]
  | String c s' =>
      if Ascii.eqb c sep then EmptyString :: split sep s'
      else match split sep s' with
           | [] => [String c EmptyString]
           | x :: xs => String c x :: xs
           end
  end.

(** [s.rfind(c)] for a one-character needle: the highest index at which
    [c] occurs, [-1] when it does not occur. *)
Fixpoint rfind (c : ascii) (s : string) : Z :=
  match s with
  | EmptyString => -1
  | String a s' =>
      let r := rfind c s' in
      if (0 <=? r)%Z then (r + 1)%Z
      else if Ascii.eqb a c then 0%Z else (-1)%Z
  end.

(** [s[i:]] for [0 <= i]. *)
Fixpoint slice_from (i : nat) (s : string) : string :=
  match i, s with
  | O, _ => s
  | S _, EmptyString => EmptyString
  | S i', String _ s' => slice_from i' s'
  end.

(** [x in xs] for a list of strings. *)
Definition mem (x : string) (xs : list string) : bool :=
  existsb (String.eqb x) xs.

End PyStr.

(* ------------------------------------------------------------------ *)
(** * [pathlib.PurePosixPath]: the two properties the source reads *)

Module PurePath.

(** The parsed components of a path: it is split at ['/'], and the empty
    components and the components ["."] are dropped. *)
Definition parts (path : string) : list string :=
  filter (fun x => negb (String.eqb x "") && negb (String.eqb x "."))
         (PyStr.split "/" path).

(** [Path(path).name]: the final component, [''] when there is none. *)
Definition name (path : string) : string := last (parts path) "".

(** [Path(path).suffix], as pathlib defines it up to Python 3.13:
    the part of the name from its last dot on, when that dot is neither
    the first nor the last character of the name. *)
Definition suffix (path : string) : string :=
  let nm := name path in
  let i := PyStr.rfind "." nm in
  if (0 <? i)%Z && (i <? PyStr.len nm - 1)%Z
  then PyStr.slice_from (Z.to_nat i) nm
  else "".

End PurePath.

(* ------------------------------------------------------------------ *)
(** * [WallpaperType] *)

Inductive WallpaperType : Type := IMAGE | VIDEO | WEB | STREAM.

(** [member.value] *)
Definition value (t : WallpaperType) : string :=
  match t with
  | IMAGE => "image"
  | VIDEO => "video"
  | WEB => "web"
  | STREAM => "stream"
  end.

(** [WallpaperLibrary._detect_type] *)
Definition image_exts : list string := [".jpg"; ".jpeg"; ".png"; ".bmp"; ".gif"].
Definition video_exts : list string := [".mp4"; ".avi"; ".mkv"; ".webm"; ".mov"].
Definition web_exts : list string := [".html"; ".htm"].

Definition _detect_type (path : string) : WallpaperType :=
  let ext := PyStr.lower (PurePath.suffix path) in
  if PyStr.mem ext image_exts then IMAGE
  else if PyStr.mem ext video_exts then VIDEO
  else if PyStr.mem ext web_exts || PyStr.startswith path "http" then WEB
  else IMAGE.

(* ------------------------------------------------------------------ *)
(** * Python values and JSON documents *)

(** The Python values that can sit in a record's fields.  [PObject]
    stands for any object [json] has no encoding for (a set, bytes, a
    class instance).  A [dict] is its items in insertion order, with
    string keys as in the data model. *)
Inductive pyval : Type :=
| PNone
| PBool (b : bool)
| PInt (z : Z)
| PStr (s : string)
| PList (xs : list pyval)
| PTuple (xs : list pyval)
| PDict (items : list (string * pyval))
| PObject (id : nat).

(** A parsed JSON document. *)
Inductive json : Type :=
| JNull
| JBool (b : bool)
| JInt (z : Z)
| JStr (s : string)
| JArr (xs : list json)
| JObj (members : list (string * json)).

(** [Some] on every element, or [None] as soon as one fails. *)
Definition traverse {A B : Type} (f : A -> option B) : list A -> option (list B) :=
  fix go (xs : list A) : option (list B) :=
    match xs with
    | [] => Some []
    | x :: xs' =>
        match f x with
        | None => None
        | Some y => match go xs' with
                    | None => None
                    | Some ys => Some (y :: ys)
                    end
        end
    end.

(** What [json.dump] writes for a value: lists and tuples both become
    arrays, a dict becomes an object, and an object without an encoding
    makes it raise [TypeError] ([None] here). *)
Fixpoint json_dump (v : pyval) : option json :=
  match v with
  | PNone => Some JNull
  | PBool b => Some (JBool b)
  | PInt z => Some (JInt z)
  | PStr s => Some (JStr s)
  | PList xs => option_map JArr (traverse json_dump xs)
  | PTuple xs => option_map JArr (traverse json_dump xs)
  | PDict items =>
      option_map JObj
        (traverse (fun kv => option_map (pair (fst kv)) (json_dump (snd kv))) items)
  | PObject _ => None
  end.

(** [d[k] = v] on a dict's items: an existing key keeps its place and
    takes the new value, a new key goes to the end. *)
Fixpoint dict_set (items : list (string * pyval)) (k : string) (v : pyval)
  : list (string * pyval) :=
  match items with
  | [] => [(k, v)]
  | (k', v') :: rest =>
      if String.eqb k' k then (k', v) :: rest
      else (k', v') :: dict_set rest k v
  end.

(** [d.get(k)]: [None] when the key is absent. *)
Fixpoint dict_lookup (items : list (string * pyval)) (k : string) : option pyval :=
  match items with
  | [] => None
  | (k', v) :: rest => if String.eqb k' k then Some v else dict_lookup rest k
  end.

(** What [json.load] returns for a document: arrays become lists and an
    object becomes a dict filled member by member, so a repeated member
    name keeps its last value. *)
Fixpoint json_load (j : json) : pyval :=
  match j with
  | JNull => PNone
  | JBool b => PBool b
  | JInt z => PInt z
  | JStr s => PStr s
  | JArr xs => PList (map json_load xs)
  | JObj members =>
      PDict (fold_left (fun d kv => dict_set d (fst kv) (json_load (snd kv)))
                       members [])
  end.

(** Values shaped like JSON data: no tuple, no object without an
    encoding, and every dict has pairwise different keys. *)
Fixpoint distinct (ks : list string) : bool :=
  match ks with
  | [] => true
  | k :: ks' => negb (PyStr.mem k ks') && distinct ks'
  end.

Fixpoint json_shaped (v : pyval) : bool :=
  match v with
  | PNone | PBool _ | PInt _ | PStr _ => true
  | PList xs => forallb json_shaped xs
  | PTuple _ => false
  | PDict items =>
      distinct (map fst items) && forallb (fun kv => json_shaped (snd kv)) items
  | PObject _ => false
  end.

(** [json.dump] accepts the value. *)
Definition json_serializable (v : pyval) : bool :=
  match json_dump v with Some _ => true | None => false end.

(* ------------------------------------------------------------------ *)
(** * [WallpaperConfig] *)

(** The dataclass checks no field type, so apart from the kind a field
    holds whatever value it was given: the annotations say [str], [int],
    [Dict] and [bool]. *)
Record WallpaperConfig : Type := Config {
  path : pyval;
  wallpaper_type : WallpaperType;
  monitor_id : pyval;
  properties : pyval;
  enabled : pyval
}.

(** [WallpaperConfig(path=.., wallpaper_type=.., monitor_id=.., properties=..,
    enabled=..)] with [__post_init__], which replaces a [None] properties
    by a new empty dict. *)
Definition new_config (p : pyval) (t : WallpaperType) (m props en : pyval)
  : WallpaperConfig :=
  Config p t m (match props with PNone => PDict [] | _ => props end) en.

(** The defaults of the dataclass fields. *)
Definition default_monitor_id : pyval := PInt (-1).
Definition default_properties : pyval := PNone.
Definition default_enabled : pyval := PBool true.

(** The fields follow their annotations. *)
Definition well_typed (c : WallpaperConfig) : bool :=
  match path c, monitor_id c, properties c, enabled c with
  | PStr _, PInt _, PDict _, PBool _ => true
  | _, _, _, _ => false
  end.

(* ------------------------------------------------------------------ *)
(** * Exceptions, the program state and the operating system *)

(** The exceptions the modelled operations raise.  Each derives from
    [Exception], so [except Exception] and a bare [except] catch them
    alike. *)
Inductive exn : Type :=
| TypeError | KeyError | ValueError | AttributeError | JSONDecodeError
| FileNotFoundError | PermissionError | OSError
| UnicodeDecodeError | TimeoutExpired.

Inductive result (A : Type) : Type :=
| Ok (a : A)
| Raise (e : exn).
Arguments Ok {A} a.
Arguments Raise {A} e.

(** A [subprocess.Popen] object, named by the order of its creation. *)
Definition handle : Type := nat.

(** The library file: absent, holding text that is no JSON document, or
    holding a document. *)
Inductive file : Type :=
| Absent
| Malformed
| Document (j : json).

(** The lines the modelled functions print, with the values they format. *)
Inductive msg : Type :=
| MsgLoadError (e : exn)                 (* Error loading library: {e} *)
| MsgSaved (n : nat)                     (* Library saved with {n} wallpaper(s) *)
| MsgSaveError (e : exn)                 (* Error saving library: {e} *)
| MsgLibraryFile                         (* Wallpaper library: {library_file} *)
| MsgLoaded (n : nat)                    (* Loaded {n} wallpaper(s) *)
| MsgAdded (name kind : string)          (* Added to library: {name} ({kind}) *)
| MsgSetting (name : string)             (* Setting wallpaper: {name} *)
| MsgType (kind : string)                (* Type: {kind} *)
| MsgMonitor (all : bool) (m : pyval)    (* Monitor: All / Monitor {m} *)
| MsgApplied                             (* Wallpaper applied successfully! *)
| MsgImageSetting                        (* Setting image wallpaper... *)
| MsgImageFeh                            (* Image wallpaper set using feh *)
| MsgFehError (stderr : string)          (* feh error: {stderr} *)
| MsgImageGsettings                      (* Image wallpaper set using gsettings *)
| MsgGsettingsError (stderr : string)    (* gsettings error: {stderr} *)
| MsgImageConfigured (p : string)        (* Image wallpaper configured: {p} *)
| MsgInstallFeh                          (* On Raspberry Pi, install feh: ... *)
| MsgImageError (e : exn)                (* Error setting image wallpaper: {e} *)
| MsgVideoStarting                       (* Starting video wallpaper... *)
| MsgVideoLaunching                      (* Launching mpv with hardware acceleration... *)
| MsgVideoStarted (p : handle)           (* Video wallpaper started (PID: {p.pid}) *)
| MsgMpvNotFound                         (* mpv not found *)
| MsgInstallMpv                          (* Install mpv on Raspberry Pi: ... *)
| MsgVideoError (e : exn)                (* Video wallpaper error: {e} *)
| MsgWeb (p : string)                    (* Web wallpaper: {p} *)
| MsgWebNeedsEngine                      (* Web wallpapers require QtWebEngine ... *)
| MsgWebInstall                          (* Install with: ... *)
| MsgWebConfigured (p : string)          (* Web wallpaper configured: {p} *)
| MsgWebNotFound (p : string)            (* Web wallpaper file not found: {p} *)
| MsgWebError (e : exn)                  (* Web wallpaper error: {e} *)
| MsgPausing                             (* Pausing all wallpapers... *)
| MsgPaused (n : nat)                    (* Paused {n} wallpaper(s) *)
| MsgResuming                            (* Resuming all wallpapers... *)
| MsgResumed (n : nat)                   (* Resumed {n} wallpaper(s) *)
| MsgStopping (n : nat)                  (* Stopping {n} wallpaper(s)... *)
| MsgStopped.                            (* All wallpapers stopped *)

(** What the program does to the outside, in the order it does it. *)
Inductive event : Type :=
| Say (m : msg)                          (* print(...) *)
| Exec (argv : list string)              (* subprocess.run(argv, capture_output=True) *)
| Spawn (argv : list string)             (* subprocess.Popen(argv, ...) *)
| Signal (p : handle) (signum : Z)       (* p.send_signal(signum) *)
| Terminate (p : handle)                 (* p.terminate() *)
| Wait (p : handle) (timeout : Z)        (* p.wait(timeout=...) *)
| Kill (p : handle).                     (* p.kill() *)

(** The library object, the manager object, the library file and the
    history of the run. *)
Record state : Type := State {
  wallpapers : list WallpaperConfig;     (* WallpaperLibrary.wallpapers *)
  active_processes : list handle;        (* WallpaperManager.active_processes *)
  library_file : file;                   (* ~/.config/lively-pi/library.json *)
  next_handle : handle;                  (* the next Popen object *)
  trace : list event                     (* oldest first *)
}.

(** The outcome of a finished [subprocess.run]: the exit status and the
    decoded standard error, [None] when [stderr.decode()] raises. *)
Record completed : Type := Completed {
  returncode : Z;
  stderr_text : option string
}.

Inductive stat_outcome : Type :=
| Found
| NotFound
| StatError (e : exn).

(** The operating system.  Every answer may depend on the whole state,
    and so on everything that happened before. *)
Record env : Type := Env {
  stat : state -> string -> stat_outcome;
  run : state -> list string -> result completed;
  popen : state -> list string -> option exn;
  send_signal : state -> handle -> Z -> option exn;
  terminate : state -> handle -> option exn;
  wait : state -> handle -> Z -> option exn;
  kill : state -> handle -> option exn
}.

(* ------------------------------------------------------------------ *)
(** * Programs: state passing with exceptions *)

(** A statement runs on a state and ends normally or by raising; the
    state it leaves behind is kept in both cases. *)
Definition M (A : Type) : Type := state -> result A * state.

Definition ret {A : Type} (a : A) : M A := fun s => (Ok a, s).

Definition raise {A : Type} (e : exn) : M A := fun s => (Raise e, s).

Definition bind {A B : Type} (c : M A) (k : A -> M B) : M B :=
  fun s => match c s with
           | (Ok a, s') => k a s'
           | (Raise e, s') => (Raise e, s')
           end.

Declare Scope prog_scope.
Delimit Scope prog_scope with prog.
Notation "x <- c ;; k" := (bind c (fun x => k))
  (at level 61, c at next level, right associativity) : prog_scope.
Notation "c ;; k" := (bind c (fun _ => k))
  (at level 61, right associativity) : prog_scope.
Open Scope prog_scope.

(** A pure computation that may raise. *)
Definition lift {A : Type} (r : result A) : M A := fun s => (r, s).

(** [try: body / except Exception as e: handler(e)] *)
Definition try_except (body : M unit) (handler : exn -> M unit) : M unit :=
  fun s => match body s with
           | (Ok a, s') => (Ok a, s')
           | (Raise e, s') => handler e s'
           end.

(** [for x in xs: body(x)] *)
Fixpoint for_each {A : Type} (xs : list A) (body : A -> M unit) : M unit :=
  match xs with
  | [] => ret tt
  | x :: xs' => body x ;; for_each xs' body
  end.

Definition get_state : M state := fun s => (Ok s, s).

Definition emit (e : event) : M unit :=
  fun s => (Ok tt, State (wallpapers s) (active_processes s) (library_file s)
                         (next_handle s) (trace s ++ [e])).

Definition print (m : msg) : M unit := emit (Say m).

Definition set_wallpapers (ws : list WallpaperConfig) : M unit :=
  fun s => (Ok tt, State ws (active_processes s) (library_file s)
                         (next_handle s) (trace s)).

Definition set_active_processes (ps : list handle) : M unit :=
  fun s => (Ok tt, State (wallpapers s) ps (library_file s)
                         (next_handle s) (trace s)).

Definition set_library_file (f : file) : M unit :=
  fun s => (Ok tt, State (wallpapers s) (active_processes s) f
                         (next_handle s) (trace s)).

(** The result and the final state of a run. *)
Definition outcome {A : Type} (c : M A) (s : state) : result A := fst (c s).
Definition final {A : Type} (c : M A) (s : state) : state := snd (c s).

(** The part of [tr'] that was added to [tr]. *)
Definition added (tr tr' : list event) : list event := skipn (List.length tr) tr'.

(* ------------------------------------------------------------------ *)
(** * The operations of Python values the library uses *)

(** [item[k]] *)
Definition subscript (item : pyval) (k : string) : result pyval :=
  match item with
  | PDict items =>
      match dict_lookup items k with
      | Some v => Ok v
      | None => Raise KeyError
      end
  | _ => Raise TypeError
  end.

(** [item.get(k, default)] *)
Definition get (item : pyval) (k : string) (default : pyval) : result pyval :=
  match item with
  | PDict items =>
      match dict_lookup items k with
      | Some v => Ok v
      | None => Ok default
      end
  | _ => Raise AttributeError
  end.

(** The elements [for item in data] goes through: the elements of a list
    or tuple, the keys of a dict, the characters of a string. *)
Definition iter (data : pyval) : result (list pyval) :=
  match data with
  | PList xs => Ok xs
  | PTuple xs => Ok xs
  | PDict items => Ok (map (fun kv => PStr (fst kv)) items)
  | PStr s => Ok (map (fun c => PStr (String c EmptyString)) (list_ascii_of_string s))
  | _ => Raise TypeError
  end.

(** [WallpaperType(v)]: the member with that value, [ValueError] when
    there is none. *)
Definition WallpaperType_of (v : pyval) : result WallpaperType :=
  match v with
  | PStr s =>
      if String.eqb s "image" then Ok IMAGE
      else if String.eqb s "video" then Ok VIDEO
      else if String.eqb s "web" then Ok WEB
      else if String.eqb s "stream" then Ok STREAM
      else Raise ValueError
  | _ => Raise ValueError
  end.

(** [v == -1] *)
Definition is_minus_one (v : pyval) : bool :=
  match v with
  | PInt z => (z =? -1)%Z
  | _ => false
  end.

(** [Path(v)]: [TypeError] for a value that is no string. *)
Definition as_path (v : pyval) : result string :=
  match v with
  | PStr p => Ok p
  | _ => Raise TypeError
  end.

(* ------------------------------------------------------------------ *)
(** * [WallpaperLibrary] *)

(** The record built from one element of the loaded data.  The keyword
    arguments are evaluated in the order they are written. *)
Definition decode_item (item : pyval) : result WallpaperConfig :=
  match subscript item "path" with
  | Raise e => Raise e
  | Ok p =>
      match subscript item "type" with
      | Raise e => Raise e
      | Ok ty =>
          match WallpaperType_of ty with
          | Raise e => Raise e
          | Ok t =>
              match get item "monitor_id" (PInt (-1)) with
              | Raise e => Raise e
              | Ok m =>
                  match get item "properties" (PDict []) with
                  | Raise e => Raise e
                  | Ok props =>
                      match get item "enabled" (PBool true) with
                      | Raise e => Raise e
                      | Ok en => Ok (new_config p t m props en)
                      end
                  end
              end
          end
      end
  end.

(** [self.wallpapers.append(config)] *)
Definition append_wallpaper (config : WallpaperConfig) : M unit :=
  s <- get_state ;; set_wallpapers (wallpapers s ++ [config]).

(** [json.load(f)] on the library file. *)
Definition json_load_file : M pyval :=
  s <- get_state ;;
  match library_file s with
  | Absent => raise FileNotFoundError
  | Malformed => raise JSONDecodeError
  | Document j => ret (json_load j)
  end.

(** [WallpaperLibrary.load_library] *)
Definition load_library : M unit :=
  s <- get_state ;;
  match library_file s with
  | Absent => ret tt
  | _ =>
      try_except
        (data <- json_load_file ;;
         items <- lift (iter data) ;;
         for_each items
           (fun item => config <- lift (decode_item item) ;;
                        append_wallpaper config))
        (fun e => print (MsgLoadError e))
  end.

(** The dict [save_library] builds for one record. *)
Definition record_dict (w : WallpaperConfig) : pyval :=
  PDict [("path", path w);
         ("type", PStr (value (wallpaper_type w)));
         ("monitor_id", monitor_id w);
         ("properties", properties w);
         ("enabled", enabled w)].

(** [with open(self.library_file, 'w') as f: json.dump(data, f, indent=2)].
    Opening truncates the file and the text is written piece by piece, so
    when the encoder raises on the way the file is left with the opening
    of an array that is never closed. *)
Definition json_dump_file (data : pyval) : M unit :=
  match json_dump data with
  | Some j => set_library_file (Document j)
  | None => set_library_file Malformed ;; raise TypeError
  end.

(** [WallpaperLibrary.save_library] *)
Definition save_library : M unit :=
  try_except
    (s <- get_state ;;
     json_dump_file (PList (map record_dict (wallpapers s))) ;;
     print (MsgSaved (List.length (wallpapers s))))
    (fun e => print (MsgSaveError e)).

(** [WallpaperLibrary.add_wallpaper]; [None] for the kind stands for the
    argument left out. *)
Definition add_wallpaper (p : string) (kind : option WallpaperType)
  : M WallpaperConfig :=
  let t := match kind with
           | None => _detect_type p
           | Some t => t
           end in
  let config := new_config (PStr p) t default_monitor_id default_properties
                           default_enabled in
  append_wallpaper config ;;
  save_library ;;
  print (MsgAdded (PurePath.name p) (value t)) ;;
  ret config.

(** [WallpaperLibrary.__init__]; the configuration directory is taken to
    exist. *)
Definition WallpaperLibrary_init : M unit :=
  set_wallpapers [] ;;
  load_library ;;
  print MsgLibraryFile ;;
  s <- get_state ;;
  print (MsgLoaded (List.length (wallpapers s))).

(* ------------------------------------------------------------------ *)
(** * [WallpaperManager] *)

Section Manager.

Variable os : env.

(** A request to the operating system: it is recorded, and raises when
    the system answers with an error. *)
Definition request (e : event) (answer : state -> option exn) : M unit :=
  s <- get_state ;;
  emit e ;;
  match answer s with
  | None => ret tt
  | Some x => raise x
  end.

(** [WallpaperManager.__init__] *)
Definition WallpaperManager_init : M unit := set_active_processes [].

(** [WallpaperManager.stop_all] *)
Definition stop_all : M unit :=
  s <- get_state ;;
  match active_processes s with
  | [] => ret tt
  | _ =>
      print (MsgStopping (List.length (active_processes s))) ;;
      for_each (active_processes s)
        (fun process =>
           try_except
             (request (Terminate process) (fun s => terminate os s process) ;;
              request (Wait process 3) (fun s => wait os s process 3))
             (fun _ =>
                try_except
                  (request (Kill process) (fun s => kill os s process))
                  (fun _ => ret tt))) ;;
      set_active_processes [] ;;
      print MsgStopped
  end.

(** [WallpaperManager.pause_all] *)
Definition pause_all : M unit :=
  print MsgPausing ;;
  s <- get_state ;;
  for_each (active_processes s)
    (fun process =>
       try_except
         (request (Signal process 19) (fun s => send_signal os s process 19))
         (fun _ => ret tt)) ;;
  s' <- get_state ;;
  print (MsgPaused (List.length (active_processes s'))).

(** [WallpaperManager.resume_all] *)
Definition resume_all : M unit :=
  print MsgResuming ;;
  s <- get_state ;;
  for_each (active_processes s)
    (fun process =>
       try_except
         (request (Signal process 18) (fun s => send_signal os s process 18))
         (fun _ => ret tt)) ;;
  s' <- get_state ;;
  print (MsgResumed (List.length (active_processes s'))).

(** [os.path.exists(p)]: never raises. *)
Definition os_path_exists (p : string) : M bool :=
  s <- get_state ;;
  ret (match stat os s p with Found => true | _ => false end).

(** [Path(p).exists()]: an error other than a missing file is raised. *)
Definition Path_exists (p : string) : M bool :=
  s <- get_state ;;
  match stat os s p with
  | Found => ret true
  | NotFound => ret false
  | StatError e => raise e
  end.

(** [subprocess.run(argv, capture_output=True)] *)
Definition subprocess_run (argv : list string) : M completed :=
  s <- get_state ;;
  emit (Exec argv) ;;
  lift (run os s argv).

(** [result.stderr.decode()] *)
Definition decode_stderr (r : completed) : M string :=
  match stderr_text r with
  | Some t => ret t
  | None => raise UnicodeDecodeError
  end.

(** [WallpaperManager._set_image_wallpaper] *)
Definition _set_image_wallpaper (p : string) : M unit :=
  try_except
    (print MsgImageSetting ;;
     feh <- os_path_exists "/usr/bin/feh" ;;
     if feh : bool then
       r <- subprocess_run ["feh"; "--bg-fill"; p] ;;
       if (returncode r =? 0)%Z then print MsgImageFeh
       else (t <- decode_stderr r ;; print (MsgFehError t))
     else
       gsettings <- os_path_exists "/usr/bin/gsettings" ;;
       if gsettings : bool then
         r <- subprocess_run ["gsettings"; "set"; "org.gnome.desktop.background";
                              "picture-uri"; "file://" ++ p] ;;
         if (returncode r =? 0)%Z then print MsgImageGsettings
         else (t <- decode_stderr r ;; print (MsgGsettingsError t))
       else
         print (MsgImageConfigured p) ;;
         print MsgInstallFeh)
    (fun e => print (MsgImageError e)).

(** The command line of the video player. *)
Definition mpv_cmd (p : string) : list string :=
  ["mpv"; "--fullscreen"; "--loop=inf"; "--no-audio"; "--vo=gpu";
   "--hwdec=auto"; "--ontop=no"; "--border=no";
   "--no-input-default-bindings"; "--input-vo-keyboard=no"; "--osc=no"; p].

(** [subprocess.Popen(argv, ...)]: a new process object, or the error
    of the failed start. *)
Definition subprocess_Popen (argv : list string) : M handle :=
  s <- get_state ;;
  emit (Spawn argv) ;;
  match popen os s argv with
  | Some x => raise x
  | None =>
      (fun s' => (Ok (next_handle s'),
                  State (wallpapers s') (active_processes s') (library_file s')
                        (S (next_handle s')) (trace s')))
  end.

(** [WallpaperManager._set_video_wallpaper] *)
Definition _set_video_wallpaper (p : string) : M unit :=
  try_except
    (print MsgVideoStarting ;;
     print MsgVideoLaunching ;;
     process <- subprocess_Popen (mpv_cmd p) ;;
     s <- get_state ;;
     set_active_processes (active_processes s ++ [process]) ;;
     print (MsgVideoStarted process))
    (fun e =>
       match e with
       | FileNotFoundError => print MsgMpvNotFound ;; print MsgInstallMpv
       | _ => print (MsgVideoError e)
       end).

(** [WallpaperManager._set_web_wallpaper] *)
Definition _set_web_wallpaper (p : string) : M unit :=
  print (MsgWeb p) ;;
  print MsgWebNeedsEngine ;;
  print MsgWebInstall ;;
  try_except
    (ok <- (if PyStr.startswith p "http" then ret true else Path_exists p) ;;
     if ok : bool then print (MsgWebConfigured p)
     else print (MsgWebNotFound p))
    (fun e => print (MsgWebError e)).

(** [WallpaperManager.set_wallpaper] *)
Definition set_wallpaper (config : WallpaperConfig) : M unit :=
  p <- lift (as_path (path config)) ;;
  print (MsgSetting (PurePath.name p)) ;;
  print (MsgType (value (wallpaper_type config))) ;;
  print (MsgMonitor (is_minus_one (monitor_id config)) (monitor_id config)) ;;
  stop_all ;;
  match wallpaper_type config with
  | IMAGE => _set_image_wallpaper p
  | VIDEO => _set_video_wallpaper p
  | WEB => _set_web_wallpaper p
  | STREAM => ret tt
  end ;;
  print MsgApplied.

(** The state in which [set_wallpaper] asks for the video player: the
    three opening lines are printed, [stop_all] has run, and so have the
    two opening lines of [_set_video_wallpaper]. *)
Definition at_launch (config : WallpaperConfig) (s : state) : state :=
  final (p <- lift (as_path (path config)) ;;
         print (MsgSetting (PurePath.name p)) ;;
         print (MsgType (value (wallpaper_type config))) ;;
         print (MsgMonitor (is_minus_one (monitor_id config))
                           (monitor_id config)) ;;
         stop_all ;;
         print MsgVideoStarting ;;
         print MsgVideoLaunching) s.

End Manager.

(* ------------------------------------------------------------------ *)
(** * The command line: [main] *)

(** The namespace [argparse] hands to [main]; [None] for an option that
    was not given. *)
Record Args : Type := MkArgs {
  arg_set_wallpaper : option string;       (* --set-wallpaper PATH *)
  arg_monitor : Z;                         (* --monitor N, default -1 *)
  arg_pause : bool;
  arg_resume : bool;
  arg_stop : bool;
  arg_list : bool;
  arg_gui : bool;
  arg_version : bool
}.

(** The lines [main] and [WallpaperManager.__init__] print themselves. *)
Inductive cli_line : Type :=
| LineVersion                            (* Lively Pi v1.0.0 *)
| LineRepository                         (* Repository: https://... *)
| LineManagerInit                        (* Wallpaper Manager initialized *)
| LineAvailable                          (* Available wallpapers: *)
| LineWallpaper (i : nat) (p : pyval) (kind : string)
                                         (*   {i}: {path} ({kind}) *)
| LineLaunchingGui                       (* Launching GUI... *)
| LineGuiLaunched                        (* GUI launched successfully! *)
| LineEnjoy                              (* Enjoy your animated wallpapers! *)
| LineGuiError (e : exn)                 (* Error launching GUI: {e} *)
| LineNoPyQt                             (* PyQt6 not available - GUI disabled *)
| LineNormal                             (* This is normal during development *)
| LineAfterInstall                       (* GUI will work after installation ... *)
| LineCliAvailable                       (* Command line interface available: *)
| LineUsageVideo                         (*    lively-pi --set-wallpaper ....mp4 *)
| LineUsageWeb                           (*    lively-pi --set-wallpaper ....html *)
| LineUsageList                          (*    lively-pi --list *)
| LineUsageVersion.                      (*    lively-pi --version *)

(** The running program: the state of the library and the manager, and
    the lines of [main], each with the length the trace had when it was
    printed, so that the order of all output is kept. *)
Record process : Type := Process {
  core : state;
  console : list (nat * cli_line)
}.

(** A statement of [main]. *)
Definition C (A : Type) : Type := process -> result A * process.

Definition cret {A : Type} (a : A) : C A := fun q => (Ok a, q).

Definition cbind {A B : Type} (c : C A) (k : A -> C B) : C B :=
  fun q => match c q with
           | (Ok a, q') => k a q'
           | (Raise e, q') => (Raise e, q')
           end.

Declare Scope cli_scope.
Delimit Scope cli_scope with cli.
Notation "x <- c ;; k" := (cbind c (fun x => k))
  (at level 61, c at next level, right associativity) : cli_scope.
Notation "c ;; k" := (cbind c (fun _ => k))
  (at level 61, right associativity) : cli_scope.

(** A call of a method of the library or the manager. *)
Definition call {A : Type} (c : M A) : C A :=
  fun q => (fst (c (core q)), Process (snd (c (core q))) (console q)).

(** [print(...)] in [main]. *)
Definition echo (l : cli_line) : C unit :=
  fun q => (Ok tt, Process (core q)
                           (console q ++ [(List.length (trace (core q)), l)])).

(** [try: body / except Exception as e: handler(e)] in [main]. *)
Definition ctry {A : Type} (body : C A) (handler : exn -> C A) : C A :=
  fun q => match body q with
           | (Ok a, q') => (Ok a, q')
           | (Raise e, q') => handler e q'
           end.

Fixpoint cfor_each {A : Type} (xs : list A) (body : A -> C unit) : C unit :=
  match xs with
  | [] => cret tt
  | x :: xs' => cbind (body x) (fun _ => cfor_each xs' body)
  end.

(** [enumerate(xs)] *)
Definition enumerate {A : Type} (xs : list A) : list (nat * A) :=
  combine (seq 0 (List.length xs)) xs.

(** [config.monitor_id = m] for the record [add_wallpaper] has just
    returned.  That record is the object at the end of the list, so the
    assignment shows there too; the updated record is returned. *)
Definition assign_monitor_id (config : WallpaperConfig) (m : pyval)
  : M WallpaperConfig :=
  let config' := Config (path config) (wallpaper_type config) m
                        (properties config) (enabled config) in
  s <- get_state ;;
  set_wallpapers (removelast (wallpapers s) ++ [config']) ;;
  ret config'.

(** The truth value of [args.set_wallpaper]: an option that was given and
    is not the empty string. *)
Definition given_path (a : Args) : option string :=
  match arg_set_wallpaper a with
  | Some p => if String.eqb p "" then None else Some p
  | None => None
  end.

Section Main.

Variable os : env.

(** Whether PyQt6 could be imported. *)
Variable PYQT_AVAILABLE : bool.

(** The graphical session, which is not modelled: creating the
    application and showing the window, and [app.exec()]. *)
Variable gui_start : C unit.
Variable gui_exec : C Z.

(** [main], from the parsed arguments on.  The line of
    [WallpaperManager.__init__] is printed right after its assignment. *)
Definition main (args : Args) : C Z :=
  (if arg_version args then
     echo LineVersion ;; echo LineRepository ;; cret 0%Z
   else
     call WallpaperLibrary_init ;;
     call WallpaperManager_init ;; echo LineManagerInit ;;
     if arg_list args then
       echo LineAvailable ;;
       (fun q =>
          cfor_each (enumerate (wallpapers (core q)))
            (fun iw => echo (LineWallpaper (fst iw) (path (snd iw))
                               (value (wallpaper_type (snd iw))))) q) ;;
       cret 0%Z
     else
       match given_path args with
       | Some p =>
           config <- call (add_wallpaper p None) ;;
           config <- call (assign_monitor_id config (PInt (arg_monitor args))) ;;
           call (set_wallpaper os config) ;;
           cret 0%Z
       | None =>
           if arg_pause args then call (pause_all os) ;; cret 0%Z
           else if arg_resume args then call (resume_all os) ;; cret 0%Z
           else if arg_stop args then call (stop_all os) ;; cret 0%Z
           else if PYQT_AVAILABLE then
             ctry (echo LineLaunchingGui ;;
                   gui_start ;;
                   echo LineGuiLaunched ;;
                   echo LineEnjoy ;;
                   gui_exec)
                  (fun e => echo (LineGuiError e) ;; cret 1%Z)
           else
             echo LineNoPyQt ;; echo LineNormal ;; echo LineAfterInstall ;;
             echo LineCliAvailable ;; echo LineUsageVideo ;;
             echo LineUsageWeb ;; echo LineUsageList ;;
             echo LineUsageVersion ;; cret 0%Z
       end)%cli.

End Main.

(** The process [main] starts in: nothing printed yet, and the library
    file as it is on disk. *)
Definition fresh_process (f : file) : process :=
  Process (State [] [] f 0 []) [].

(** The arguments of a call with no option. *)
Definition no_args : Args :=
  MkArgs None (-1) false false false false false false.

(* ================================================================== *)
(** * The vocabulary of the properties *)

(** The state with more events at the end of its trace. *)
Definition with_trace (s : state) (evs : list event) : state :=
  State (wallpapers s) (active_processes s) (library_file s) (next_handle s)
        (trace s ++ evs).

(** [s'] differs from [s] at most by a longer trace. *)
Definition only_trace (s s' : state) : Prop :=
  exists evs, s' = with_trace s evs.

(** A program is [quiet] when it changes nothing but the trace, however it
    ends, and [normal] when in addition it always ends without raising. *)
Definition quiet {A : Type} (c : M A) : Prop :=
  forall s, only_trace s (snd (c s)).

Definition normal (c : M unit) : Prop :=
  forall s, exists s', c s = (Ok tt, s') /\ only_trace s s'.

(** Every handle that is tracked was created before. *)
Definition tracked_ok (s : state) : Prop :=
  Forall (fun h => h < next_handle s) (active_processes s).

(** The lines printed when the player could not be started. *)
Definition video_failure (e : exn) : list event :=
  match e with
  | FileNotFoundError => [Say MsgMpvNotFound; Say MsgInstallMpv]
  | _ => [Say (MsgVideoError e)]
  end.


(** The character occurs in the string. *)
Fixpoint occurs (c : ascii) (s : string) : bool :=
  match s with
  | EmptyString => false
  | String a s' => Ascii.eqb a c || occurs c s'
  end.

(** The path ends in the extension [ext]: its last component is a
    non-empty stem followed by [ext], and [ext] is a dot followed by at
    least one character, none of them a dot or a slash. *)
Definition has_extension (p ext : string) : Prop :=
  exists dir stem e,
    p = (dir ++ stem ++ ext)%string
    /\ ext = String "." e
    /\ (dir = "" \/ exists d, dir = (d ++ "/")%string)
    /\ stem <> "" /\ occurs "/" stem = false
    /\ e <> "" /\ occurs "." e = false /\ occurs "/" e = false.

(** The extension [_detect_type] looks at. *)
Definition extension (p : string) : string := PyStr.lower (PurePath.suffix p).

(** The records the loop of [load_library] adds for the loaded elements:
    those of the elements before the first one that cannot be decoded. *)
Fixpoint decode_prefix (items : list pyval) : list WallpaperConfig :=
  match items with
  | [] => []
  | item :: rest =>
      match decode_item item with
      | Ok config => config :: decode_prefix rest
      | Raise _ => []
      end
  end.

(** The exception that ends the loop, when an element cannot be decoded. *)
Fixpoint decode_error (items : list pyval) : option exn :=
  match items with
  | [] => None
  | item :: rest =>
      match decode_item item with
      | Ok _ => decode_error rest
      | Raise e => Some e
      end
  end.

(** The records a library file holds for [load_library]. *)
Definition file_records (f : file) : list WallpaperConfig :=
  match f with
  | Document j =>
      match iter (json_load j) with
      | Ok items => decode_prefix items
      | Raise _ => []
      end
  | _ => []
  end.

(** The exception [load_library] catches on a library file, if any. *)
Definition file_error (f : file) : option exn :=
  match f with
  | Absent => None
  | Malformed => Some JSONDecodeError
  | Document j =>
      match iter (json_load j) with
      | Ok items => decode_error items
      | Raise e => Some e
      end
  end.

(** The line [load_library] prints on a library file, if any. *)
Definition load_report (f : file) : list event :=
  match file_error f with
  | Some e => [Say (MsgLoadError e)]
  | None => []
  end.

(** The document [save_library] writes for a list of records, when
    [json.dump] accepts them. *)
Definition library_document (ws : list WallpaperConfig) : option json :=
  json_dump (PList (map record_dict ws)).

(** [json.dump] accepts every field of the record. *)
Definition record_serializable (w : WallpaperConfig) : bool :=
  json_serializable (path w) && json_serializable (monitor_id w)
  && json_serializable (properties w) && json_serializable (enabled w).

(** A record whose fields all hold JSON-shaped values, the properties
    being a dict. *)
Definition record_shaped (w : WallpaperConfig) : bool :=
  json_shaped (path w) && json_shaped (monitor_id w)
  && json_shaped (enabled w) && json_shaped (properties w)
  && match properties w with PDict _ => true | _ => false end.

(** The object [save_library] writes for a record [w]: exactly the five
    members, in this order, the kind as its string value. *)
Definition stored_as (w : WallpaperConfig) (o : json) : Prop :=
  exists jp jm jprops je,
    json_dump (path w) = Some jp
    /\ json_dump (monitor_id w) = Some jm
    /\ json_dump (properties w) = Some jprops
    /\ json_dump (enabled w) = Some je
    /\ o = JObj [("path", jp);
                 ("type", JStr (value (wallpaper_type w)));
                 ("monitor_id", jm);
                 ("properties", jprops);
                 ("enabled", je)].

(** [get] with the default of the dataclass field filled in. *)
Definition field_or (items : list (string * pyval)) (k : string)
           (default : pyval) : pyval :=
  match dict_lookup items k with
  | Some v => v
  | None => default
  end.

(** A library state that already holds a record, next to an empty
    library file. *)
Definition photo : WallpaperConfig :=
  Config (PStr "/home/pi/Pictures/hills.jpg") IMAGE (PInt (-1)) (PDict [])
         (PBool true).

Definition stale_state : state := State [photo] [] (Document (JArr [])) 0 [].

(** A record whose properties hold a tuple, and one whose properties hold
    an object [json] cannot encode. *)
Definition sized : WallpaperConfig :=
  Config (PStr "/home/pi/Pictures/hills.jpg") IMAGE (PInt (-1))
         (PDict [("size", PTuple [PInt 1920; PInt 1080])]) (PBool true).

Definition tagged : WallpaperConfig :=
  Config (PStr "/home/pi/Pictures/hills.jpg") IMAGE (PInt (-1))
         (PDict [("tags", PObject 0)]) (PBool true).

Definition library_of (ws : list WallpaperConfig) : state :=
  State ws [] Absent 0 [].

(** A stored object that gives the path and the kind only. *)
Definition minimal_item : list (string * pyval) :=
  [("path", PStr "/home/pi/Videos/waves.mp4"); ("type", PStr "video")].

(** Two operating systems to run the manager on: one on which nothing is
    installed and no process obeys, and one on which every tool is there
    and succeeds. *)
Definition bare_system : env :=
  Env (fun _ _ => NotFound)
      (fun _ _ => Raise FileNotFoundError)
      (fun _ _ => Some FileNotFoundError)
      (fun _ _ _ => Some OSError)
      (fun _ _ => Some OSError)
      (fun _ _ _ => Some TimeoutExpired)
      (fun _ _ => Some OSError).

Definition full_system : env :=
  Env (fun _ _ => Found)
      (fun _ _ => Ok (Completed 0 (Some "")))
      (fun _ _ => None)
      (fun _ _ _ => None)
      (fun _ _ => None)
      (fun _ _ _ => None)
      (fun _ _ => None).

Definition clip : WallpaperConfig :=
  Config (PStr "/home/pi/Videos/waves.mp4") VIDEO (PInt (-1)) (PDict [])
         (PBool true).

Definition busy_state : state := State [clip] [3; 4] Absent 5 [].

(** The record has a properties value, as [__post_init__] sees to. *)
Definition has_properties (w : WallpaperConfig) : bool :=
  match properties w with
  | PNone => false
  | _ => true
  end.

(** A record as the program itself makes them: every field holds
    JSON-shaped data and the properties are not [None]. *)
Definition record_plain (w : WallpaperConfig) : bool :=
  json_shaped (path w) && json_shaped (monitor_id w)
  && json_shaped (enabled w) && json_shaped (properties w)
  && has_properties w.

(** The processes a trace sends [terminate] to, and those it kills, in
    order. *)
Definition terminated (evs : list event) : list handle :=
  flat_map (fun e => match e with Terminate p => [p] | _ => [] end) evs.

Definition killed (evs : list event) : list handle :=
  flat_map (fun e => match e with Kill p => [p] | _ => [] end) evs.

(** The event reaches a process: a signal, a terminate, a wait or a
    kill. *)
Definition touches_process (e : event) : bool :=
  match e with
  | Signal _ _ | Terminate _ | Wait _ _ | Kill _ => true
  | _ => false
  end.

(** The operating system answers every terminate and every wait without
    an error. *)
Definition obedient (os : env) : Prop :=
  (forall s p, terminate os s p = None)
  /\ (forall s p t, wait os s p t = None).

(** A library that holds a record, next to a file whose second element
    lacks its kind. *)
Definition half_read_state : state :=
  State [photo] []
        (Document (JArr [JObj [("path", JStr "a.png"); ("type", JStr "image")];
                         JObj [("path", JStr "b.png")];
                         JObj [("path", JStr "c.mp4"); ("type", JStr "video")]]))
        0 [].

(** The program changes nothing but the trace, and every event it adds
    satisfies [Q], however it ends. *)
Definition adds_only {A : Type} (Q : event -> Prop) (c : M A) : Prop :=
  forall s, exists evs, snd (c s) = with_trace s evs /\ Forall Q evs.

(** The event is a printed line. *)
Definition is_say (e : event) : Prop :=
  match e with
  | Say _ => True
  | _ => False
  end.

(** The event is a printed line or the run of an external command. *)
Definition is_say_or_exec (e : event) : Prop :=
  match e with
  | Say _ | Exec _ => True
  | _ => False
  end.

(** The commands a trace runs and the commands it starts, in order. *)
Definition execs (evs : list event) : list (list string) :=
  flat_map (fun e => match e with Exec argv => [argv] | _ => [] end) evs.

Definition spawns (evs : list event) : list (list string) :=
  flat_map (fun e => match e with Spawn argv => [argv] | _ => [] end) evs.

(** The events [stop_all] addresses to one process. *)
Definition stop_events (p : handle) (evs : list event) : Prop :=
  evs = [Terminate p; Wait p 3]
  \/ evs = [Terminate p; Wait p 3; Kill p]
  \/ evs = [Terminate p; Kill p].

(** The process once [main] has made its library and its manager. *)
Definition started (q : process) : process :=
  let f := library_file (core q) in
  let tr := (trace (core q) ++ load_report f
               ++ [Say MsgLibraryFile;
                   Say (MsgLoaded (List.length (file_records f)))])%list in
  Process (State (file_records f) [] f (next_handle (core q)) tr)
          (console q ++ [(List.length tr, LineManagerInit)]).



(** A graphical session that shows its window and ends with status 0,
    and a library file with one stored record, to run [main] on. *)
Definition idle_gui_start : C unit := cret tt.
Definition idle_gui_exec : C Z := cret 0%Z.

Definition one_record_file : file :=
  Document (JArr [JObj [("path", JStr "/home/pi/Pictures/hills.jpg");
                        ("type", JStr "image")]]).

(** The keys [load_library] reads of a stored object. *)
Definition record_keys : list string :=
  ["path"; "type"; "monitor_id"; "properties"; "enabled"].

Section Dispatch.

Variable os : env.









End Dispatch.



(* ================================================================== *)
(** * Properties *)

Open Scope list_scope.

(** ** Running the embedding *)

Example detect_png : _detect_type "/home/pi/Pictures/a.PNG" = IMAGE.
Proof. reflexivity. Qed.
Example detect_mkv : _detect_type "clips/loop.tar.mkv" = VIDEO.
Proof. reflexivity. Qed.
Example detect_url : _detect_type "https://example.org" = WEB.
Proof. reflexivity. Qed.
Example detect_hidden : _detect_type "/home/pi/.png" = IMAGE.
Proof. reflexivity. Qed.
Example detect_dir : _detect_type "site/index.html/" = WEB.
Proof. reflexivity. Qed.
Example dump_tuple :
  json_dump (PDict [("size", PTuple [PInt 1; PInt 2])])
  = Some (JObj [("size", JArr [JInt 1; JInt 2])]).
Proof. reflexivity. Qed.
Example load_repeated :
  json_load (JObj [("a", JInt 1); ("b", JNull); ("a", JInt 3)])
  = PDict [("a", PInt 3); ("b", PNone)].
Proof. reflexivity. Qed.

(** ** Running programs *)

Lemma with_trace_nil s : with_trace s [] = s.
Proof. destruct s; unfold with_trace; simpl. now rewrite app_nil_r. Qed.

Lemma with_trace_app s a b :
  with_trace (with_trace s a) b = with_trace s (a ++ b).
Proof. unfold with_trace; simpl. now rewrite app_assoc. Qed.

Lemma only_trace_refl s : only_trace s s.
Proof. exists []. symmetry. apply with_trace_nil. Qed.

Lemma only_trace_trans s1 s2 s3 :
  only_trace s1 s2 -> only_trace s2 s3 -> only_trace s1 s3.
Proof.
  intros [a ->] [b ->]. exists (a ++ b). apply with_trace_app.
Qed.

Lemma only_trace_emit s evs : only_trace s (with_trace s evs).
Proof. now exists evs. Qed.

Lemma emit_run e s : emit e s = (Ok tt, with_trace s [e]).
Proof. reflexivity. Qed.

Lemma added_with_trace s evs : added (trace s) (trace (with_trace s evs)) = evs.
Proof.
  unfold added, with_trace; simpl.
  rewrite skipn_app, skipn_all, Nat.sub_diag. reflexivity.
Qed.

Create HintDb prog.
#[local] Hint Resolve only_trace_refl only_trace_emit : prog.

(** A request leaves the objects alone, whatever the answer. *)
Lemma request_run e answer s :
  request e answer s
  = (match answer s with None => Ok tt | Some x => Raise x end,
     with_trace s [e]).
Proof.
  unfold request, bind, get_state. rewrite emit_run.
  destruct (answer s); reflexivity.
Qed.

(** How a sequence runs once its first statement is known. *)
Lemma bind_ok {A B : Type} (c : M A) (k : A -> M B) s a s' :
  c s = (Ok a, s') -> bind c k s = k a s'.
Proof. intros H. unfold bind. now rewrite H. Qed.

Lemma bind_print {B : Type} m (k : unit -> M B) s :
  bind (print m) k s = k tt (with_trace s [Say m]).
Proof. reflexivity. Qed.

Lemma bind_lift_ok {A B : Type} (a : A) (k : A -> M B) s :
  bind (lift (Ok a)) k s = k a s.
Proof. reflexivity. Qed.

Lemma bind_get_state {B : Type} (k : state -> M B) s :
  bind get_state k s = k s s.
Proof. reflexivity. Qed.

(** A loop whose body always ends normally and keeps a transitive
    relation ends normally and keeps it. *)
Lemma for_each_normal {A : Type} (R : state -> state -> Prop)
      (body : A -> M unit) :
  (forall s, R s s) ->
  (forall s1 s2 s3, R s1 s2 -> R s2 s3 -> R s1 s3) ->
  (forall x s, exists s', body x s = (Ok tt, s') /\ R s s') ->
  forall xs s, exists s', for_each xs body s = (Ok tt, s') /\ R s s'.
Proof.
  intros Hrefl Htrans Hbody xs.
  induction xs as [|x xs IH]; intros s; simpl.
  - exists s. split; [reflexivity | apply Hrefl].
  - unfold bind. destruct (Hbody x s) as [s1 [-> H1]].
    destruct (IH s1) as [s2 [-> H2]].
    exists s2. split; [reflexivity | eapply Htrans; eassumption].
Qed.

(** ** Membership in a list of strings *)

Lemma mem_In x xs : PyStr.mem x xs = true <-> In x xs.
Proof.
  unfold PyStr.mem. rewrite existsb_exists. split.
  - intros [y [Hy Heq]]. apply String.eqb_eq in Heq. now subst.
  - intros H. exists x. split; [assumption | apply String.eqb_refl].
Qed.

Lemma mem_not_In x xs : PyStr.mem x xs = false <-> ~ In x xs.
Proof.
  rewrite <- mem_In. destruct (PyStr.mem x xs); split; congruence.
Qed.

(* ------------------------------------------------------------------ *)
(** ** The manager: stopping, pausing and resuming *)

Section ManagerProperties.

Variable os : env.

(** One turn of the loop of [stop_all]: whatever the process answers,
    the turn ends normally and only the trace grows. *)
Lemma stop_turn process s :
  exists s',
    try_except
      (request (Terminate process) (fun s => terminate os s process) ;;
       request (Wait process 3) (fun s => wait os s process 3))
      (fun _ =>
         try_except
           (request (Kill process) (fun s => kill os s process))
           (fun _ => ret tt)) s = (Ok tt, s')
    /\ only_trace s s'.
Proof.
  unfold try_except, bind. rewrite request_run.
  destruct (terminate os s process); cbv iota beta; rewrite request_run.
  - destruct (kill os _ process); eexists; (split; [reflexivity|]);
      rewrite !with_trace_app; auto with prog.
  - destruct (wait os _ process 3); cbv iota beta.
    + rewrite request_run.
      destruct (kill os _ process); eexists; (split; [reflexivity|]);
        rewrite !with_trace_app; auto with prog.
    + eexists; split; [reflexivity|].
      rewrite !with_trace_app; auto with prog.
Qed.

(** What [stop_all] does on a state that tracks something. *)
Lemma stop_all_run s :
  exists evs,
    stop_all os s
    = (Ok tt,
       State (wallpapers s)
             (match active_processes s with [] => active_processes s | _ => [] end)
             (library_file s) (next_handle s) (trace s ++ evs))
    /\ (active_processes s = [] -> evs = []).
Proof.
  unfold stop_all, bind at 1, get_state.
  destruct (active_processes s) as [|p ps] eqn:Hps.
  - exists []. split; [|reflexivity].
    unfold ret. f_equal. destruct s; simpl in *. subst.
    now rewrite app_nil_r.
  - unfold bind at 1. unfold print at 1. rewrite emit_run.
    unfold bind at 1.
    match goal with
    | |- context [for_each ?xs ?body ?st] =>
        destruct (for_each_normal only_trace body only_trace_refl
                    only_trace_trans stop_turn xs st)
          as [s1 [Hrun [evs Hs1]]]
    end.
    rewrite Hrun. rewrite with_trace_app in Hs1. subst s1.
    eexists. split; [|discriminate].
    unfold bind, set_active_processes, print. rewrite emit_run.
    unfold with_trace; simpl. rewrite <- !app_assoc. reflexivity.
Qed.

(** One turn of the loop of [pause_all] and [resume_all]. *)
Lemma signal_turn signum process s :
  try_except
    (request (Signal process signum) (fun s => send_signal os s process signum))
    (fun _ => ret tt) s
  = (Ok tt, with_trace s [Signal process signum]).
Proof.
  unfold try_except. rewrite request_run.
  destruct (send_signal os s process signum); reflexivity.
Qed.

Lemma signal_loop signum ps s :
  for_each ps
    (fun process =>
       try_except
         (request (Signal process signum)
                  (fun s => send_signal os s process signum))
         (fun _ => ret tt)) s
  = (Ok tt, with_trace s (map (fun p => Signal p signum) ps)).
Proof.
  revert s. induction ps as [|p ps IH]; intros s; simpl.
  - unfold ret. now rewrite with_trace_nil.
  - unfold bind. rewrite signal_turn, IH, with_trace_app. reflexivity.
Qed.

Lemma pause_all_run s :
  pause_all os s
  = (Ok tt,
     with_trace s
       ([Say MsgPausing]
          ++ map (fun p => Signal p 19) (active_processes s)
          ++ [Say (MsgPaused (List.length (active_processes s)))])).
Proof.
  unfold pause_all, bind, print, get_state. rewrite emit_run.
  rewrite signal_loop, emit_run, !with_trace_app. reflexivity.
Qed.

Lemma resume_all_run s :
  resume_all os s
  = (Ok tt,
     with_trace s
       ([Say MsgResuming]
          ++ map (fun p => Signal p 18) (active_processes s)
          ++ [Say (MsgResumed (List.length (active_processes s)))])).
Proof.
  unfold resume_all, bind, print, get_state. rewrite emit_run.
  rewrite signal_loop, emit_run, !with_trace_app. reflexivity.
Qed.

(** C5.  On every manager state [stop_all] ends without raising and
    leaves no tracked process; the library, the library file and the
    earlier trace are kept.  On a state that tracks no process it does
    nothing at all: the state afterwards is the state before, so no
    signal is sent and nothing is printed. *)
Theorem stop_all_clears s :
  outcome (stop_all os) s = Ok tt
  /\ active_processes (final (stop_all os) s) = []
  /\ wallpapers (final (stop_all os) s) = wallpapers s
  /\ library_file (final (stop_all os) s) = library_file s
  /\ firstn (List.length (trace s)) (trace (final (stop_all os) s)) = trace s
  /\ (active_processes s = [] ->
      final (stop_all os) s = s
      /\ added (trace s) (trace (final (stop_all os) s)) = []).
Proof.
  unfold outcome, final.
  destruct (stop_all_run s) as [evs [-> Hnil]]. simpl.
  repeat split.
  - now destruct (active_processes s).
  - rewrite firstn_app, firstn_all, Nat.sub_diag. simpl. apply app_nil_r.
  - rewrite (Hnil H). destruct s; simpl in *. subst.
    now rewrite app_nil_r.
  - rewrite (Hnil H). unfold added.
    rewrite app_nil_r. apply skipn_all.
Qed.

(** C6.  [pause_all] and [resume_all] end without raising and change
    nothing but the trace: the tracked list is the same afterwards, and
    the trace grows by the opening line, one signal (19 to pause, 18 to
    resume) to each tracked process in order, and the closing line.  On
    an empty tracked list no signal is sent. *)
Theorem pause_resume_keep_tracked s :
  (outcome (pause_all os) s = Ok tt
   /\ final (pause_all os) s
      = with_trace s
          ([Say MsgPausing]
             ++ map (fun p => Signal p 19) (active_processes s)
             ++ [Say (MsgPaused (List.length (active_processes s)))])
   /\ active_processes (final (pause_all os) s) = active_processes s)
  /\ (outcome (resume_all os) s = Ok tt
      /\ final (resume_all os) s
         = with_trace s
             ([Say MsgResuming]
                ++ map (fun p => Signal p 18) (active_processes s)
                ++ [Say (MsgResumed (List.length (active_processes s)))])
      /\ active_processes (final (resume_all os) s) = active_processes s)
  /\ (active_processes s = [] ->
      added (trace s) (trace (final (pause_all os) s))
      = [Say MsgPausing; Say (MsgPaused 0)]
      /\ added (trace s) (trace (final (resume_all os) s))
         = [Say MsgResuming; Say (MsgResumed 0)]).
Proof.
  unfold outcome, final. rewrite pause_all_run, resume_all_run.
  cbn [fst snd]. repeat split; intros; rewrite added_with_trace, H;
    reflexivity.
Qed.

End ManagerProperties.

(* ------------------------------------------------------------------ *)
(** ** The manager: setting a wallpaper *)

Lemma normal_quiet c : normal c -> quiet c.
Proof. intros H s. destruct (H s) as [s' [-> Hs]]. exact Hs. Qed.

Lemma quiet_ret {A : Type} (a : A) : quiet (ret a).
Proof. intros s. apply only_trace_refl. Qed.

Lemma quiet_raise {A : Type} (e : exn) : quiet (@raise A e).
Proof. intros s. apply only_trace_refl. Qed.

Lemma quiet_lift {A : Type} (r : result A) : quiet (lift r).
Proof. intros s. apply only_trace_refl. Qed.

Lemma quiet_get_state : quiet get_state.
Proof. intros s. apply only_trace_refl. Qed.

Lemma quiet_emit e : quiet (emit e).
Proof. intros s. apply only_trace_emit. Qed.

Lemma quiet_bind {A B : Type} (c : M A) (k : A -> M B) :
  quiet c -> (forall a, quiet (k a)) -> quiet (bind c k).
Proof.
  intros Hc Hk s. unfold bind. specialize (Hc s).
  destruct (c s) as [[a|e] s1]; simpl in *.
  - eapply only_trace_trans; [exact Hc | apply Hk].
  - exact Hc.
Qed.

Lemma normal_print m : normal (print m).
Proof. intros s. eexists. split; [reflexivity | apply only_trace_emit]. Qed.

Lemma normal_ret : normal (ret tt).
Proof. intros s. eexists. split; [reflexivity | apply only_trace_refl]. Qed.

Lemma normal_bind (c k : M unit) :
  normal c -> normal k -> normal (c ;; k).
Proof.
  intros Hc Hk s. unfold bind.
  destruct (Hc s) as [s1 [-> H1]]. destruct (Hk s1) as [s2 [-> H2]].
  exists s2. split; [reflexivity | eapply only_trace_trans; eassumption].
Qed.

(** A [try] whose body is quiet and whose handler is normal is normal:
    nothing is raised out of it. *)
Lemma normal_try_except body handler :
  quiet body -> (forall e, normal (handler e)) ->
  normal (try_except body handler).
Proof.
  intros Hb Hh s. unfold try_except. specialize (Hb s).
  destruct (body s) as [[[]|e] s1]; simpl in *.
  - exists s1. split; [reflexivity | exact Hb].
  - destruct (Hh e s1) as [s2 [-> H2]].
    exists s2. split; [reflexivity | eapply only_trace_trans; eassumption].
Qed.

Ltac quiet_step :=
  first
    [ apply quiet_ret | apply quiet_raise | apply quiet_lift
    | apply quiet_get_state | apply quiet_emit
    | apply quiet_bind; [| intros ?]
    | match goal with
      | |- quiet (match ?x with _ => _ end) => destruct x
      end ].

Ltac normal_step :=
  first
    [ apply normal_print | apply normal_ret
    | apply normal_bind
    | match goal with
      | |- normal (match ?x with _ => _ end) => destruct x
      end ].

Section SetWallpaper.

Variable os : env.

(** Setting an image ends normally, whatever the tools answer, and only
    the trace grows. *)
Lemma image_normal p : normal (_set_image_wallpaper os p).
Proof.
  unfold _set_image_wallpaper. apply normal_try_except.
  - unfold print, os_path_exists, subprocess_run, decode_stderr.
    repeat quiet_step.
  - intros e. apply normal_print.
Qed.

(** Setting a web wallpaper ends normally and only the trace grows. *)
Lemma web_normal p : normal (_set_web_wallpaper os p).
Proof.
  unfold _set_web_wallpaper. repeat normal_step.
  apply normal_try_except.
  - unfold print, Path_exists. repeat quiet_step.
  - intros e. apply normal_print.
Qed.

(** Setting a video: the player is asked for after two lines; a started
    player is tracked at the end of the list, a failed start is reported
    and tracks nothing. *)
Lemma video_run p s :
  _set_video_wallpaper os p s
  = (Ok tt,
     match popen os (with_trace s [Say MsgVideoStarting; Say MsgVideoLaunching])
                 (mpv_cmd p) with
     | None =>
         State (wallpapers s) (active_processes s ++ [next_handle s])
               (library_file s) (S (next_handle s))
               (trace s ++ [Say MsgVideoStarting; Say MsgVideoLaunching;
                            Spawn (mpv_cmd p);
                            Say (MsgVideoStarted (next_handle s))])
     | Some e =>
         with_trace s ([Say MsgVideoStarting; Say MsgVideoLaunching;
                        Spawn (mpv_cmd p)] ++ video_failure e)
     end).
Proof.
  unfold _set_video_wallpaper, try_except, bind at 1, print at 1.
  rewrite emit_run. unfold bind at 1, print at 1. rewrite emit_run.
  rewrite with_trace_app. cbn [app].
  unfold subprocess_Popen, bind, get_state. rewrite emit_run.
  destruct (popen os _ (mpv_cmd p)) as [e|].
  - unfold raise. destruct e; unfold print, bind; rewrite ?emit_run;
      rewrite ?with_trace_app; reflexivity.
  - unfold set_active_processes, print, emit, with_trace. cbn.
    rewrite <- !app_assoc. reflexivity.
Qed.


(** [set_wallpaper] up to its dispatch. *)
Lemma set_wallpaper_run config p s :
  path config = PStr p ->
  exists evs,
    let s2 := State (wallpapers s) [] (library_file s) (next_handle s)
                    (trace s ++ evs) in
    set_wallpaper os config s
    = (match wallpaper_type config with
       | IMAGE => _set_image_wallpaper os p
       | VIDEO => _set_video_wallpaper os p
       | WEB => _set_web_wallpaper os p
       | STREAM => ret tt
       end ;; print MsgApplied) s2
    /\ at_launch os config s
       = with_trace s2 [Say MsgVideoStarting; Say MsgVideoLaunching].
Proof.
  intros Hp. unfold set_wallpaper, at_launch, final. rewrite Hp. cbn [as_path].
  rewrite !bind_lift_ok, !bind_print, !with_trace_app. cbn [app].
  match goal with
  | |- context [bind (stop_all os) _ ?st] =>
      destruct (stop_all_run os st) as [evs [Hstop _]]
  end.
  rewrite !(bind_ok _ _ _ _ _ Hstop).
  eexists. cbv zeta. split.
  - f_equal. cbn [wallpapers active_processes library_file next_handle trace
                  with_trace].
    rewrite <- app_assoc.
    f_equal. now destruct (active_processes s).
  - rewrite !bind_print. unfold print. rewrite emit_run. cbn [snd].
    rewrite !with_trace_app.
    unfold with_trace.
    cbn [wallpapers active_processes library_file next_handle trace app].
    rewrite <- !app_assoc. f_equal. now destruct (active_processes s).
Qed.

(** A record whose path is no string makes [set_wallpaper] raise at its
    first line, before anything is stopped or printed. *)
Lemma set_wallpaper_path_not_str config s :
  (forall p, path config <> PStr p) ->
  set_wallpaper os config s = (Raise TypeError, s).
Proof.
  intros Hp. unfold set_wallpaper, bind, lift, as_path.
  destruct (path config); try reflexivity. now destruct (Hp s0).
Qed.

(** C3, as amended.  For every manager state whose tracked handles were
    created earlier and every record of kind video with a string path:
    after [set_wallpaper] the tracked list holds exactly the one new
    handle when the player could be started, and is empty when the start
    failed; in both cases none of the handles tracked before is left. *)
Theorem set_video_tracks config p s :
  wallpaper_type config = VIDEO ->
  path config = PStr p ->
  tracked_ok s ->
  match popen os (at_launch os config s) (mpv_cmd p) with
  | None =>
      active_processes (final (set_wallpaper os config) s) = [next_handle s]
  | Some _ =>
      active_processes (final (set_wallpaper os config) s) = []
  end
  /\ (forall h, In h (active_processes s) ->
                ~ In h (active_processes (final (set_wallpaper os config) s)))
  /\ tracked_ok (final (set_wallpaper os config) s).
Proof.
  intros Hkind Hp Hok. unfold final, tracked_ok in *.
  destruct (set_wallpaper_run config p s Hp) as [evs [-> ->]].
  rewrite Hkind. rewrite (bind_ok _ _ _ _ _ (video_run p _)).
  unfold with_trace at 1 3.
  cbn [wallpapers active_processes library_file next_handle trace].
  destruct (popen os _ (mpv_cmd p)); cbn.
  - repeat split; auto.
  - repeat split.
    + intros h Hin [Heq|[]]. subst h.
      rewrite Forall_forall in Hok. specialize (Hok _ Hin). lia.
    + repeat constructor.
Qed.

End SetWallpaper.

(** The tracked handles stay handles created earlier under every operation
    of the manager, and a new manager tracks none. *)
Lemma tracked_ok_init s : tracked_ok (final WallpaperManager_init s).
Proof. constructor. Qed.

Lemma tracked_ok_stop_all os s : tracked_ok (final (stop_all os) s).
Proof.
  unfold final, tracked_ok. destruct (stop_all_run os s) as [evs [-> _]].
  cbn. destruct (active_processes s); constructor.
Qed.

Lemma tracked_ok_pause_all os s :
  tracked_ok s -> tracked_ok (final (pause_all os) s).
Proof. unfold final. now rewrite pause_all_run. Qed.

Lemma tracked_ok_resume_all os s :
  tracked_ok s -> tracked_ok (final (resume_all os) s).
Proof. unfold final. now rewrite resume_all_run. Qed.

(** C3 fails as stated: on a system without the player, setting a video
    record leaves no tracked handle instead of one. *)
Lemma set_video_without_player :
  wallpaper_type clip = VIDEO
  /\ active_processes (final (set_wallpaper bare_system clip) busy_state) = []
  /\ List.length
       (active_processes (final (set_wallpaper bare_system clip) busy_state))
     <> 1.
Proof. vm_compute. repeat split. discriminate. Qed.

Lemma set_video_tracks_witness :
  wallpaper_type clip = VIDEO
  /\ tracked_ok busy_state
  /\ active_processes (final (set_wallpaper full_system clip) busy_state) = [5]
  /\ ~ In 3 (active_processes (final (set_wallpaper full_system clip) busy_state)).
Proof.
  assert (Hok : tracked_ok busy_state).
  { unfold tracked_ok, busy_state; cbn.
    repeat constructor. }
  pose proof (set_video_tracks full_system clip "/home/pi/Videos/waves.mp4"
                busy_state eq_refl eq_refl Hok) as [H1 [H2 _]].
  unfold full_system at 1 in H1. cbn [popen] in H1.
  split; [reflexivity | split; [exact Hok | split; [exact H1 |]]].
  apply H2. left. reflexivity.
Defined.

(* ------------------------------------------------------------------ *)
(** ** The library: what saving and loading do to the state *)

(** [save_library] always ends normally.  It writes the document when
    [json.dump] accepts the records and leaves a malformed file when it
    does not; the records themselves are not touched. *)
Lemma save_library_run s :
  save_library s
  = (Ok tt,
     match library_document (wallpapers s) with
     | Some j =>
         State (wallpapers s) (active_processes s) (Document j) (next_handle s)
               (trace s ++ [Say (MsgSaved (List.length (wallpapers s)))])
     | None =>
         State (wallpapers s) (active_processes s) Malformed (next_handle s)
               (trace s ++ [Say (MsgSaveError TypeError)])
     end).
Proof.
  unfold save_library, try_except, library_document.
  rewrite bind_get_state. unfold json_dump_file.
  destruct (json_dump (PList (map record_dict (wallpapers s)))); reflexivity.
Qed.

(** The loop of [load_library] appends the records of the elements before
    the first one that cannot be decoded, and raises what that one
    raises. *)
Lemma load_loop items s :
  for_each items
    (fun item => config <- lift (decode_item item) ;; append_wallpaper config) s
  = (match decode_error items with
     | None => Ok tt
     | Some e => Raise e
     end,
     State (wallpapers s ++ decode_prefix items) (active_processes s)
           (library_file s) (next_handle s) (trace s)).
Proof.
  revert s. induction items as [|item rest IH]; intros s; simpl.
  - rewrite app_nil_r. now destruct s.
  - unfold bind at 1. unfold bind at 1. unfold lift at 1.
    destruct (decode_item item) as [config|e].
    + unfold append_wallpaper. rewrite bind_get_state.
      unfold set_wallpapers at 1. rewrite IH. cbn.
      now rewrite <- app_assoc.
    + rewrite app_nil_r. now destruct s.
Qed.

(** [load_library] always ends normally and appends the records of the
    file to the list; what it catches is printed. *)
Lemma load_library_run s :
  load_library s
  = (Ok tt,
     State (wallpapers s ++ file_records (library_file s)) (active_processes s)
           (library_file s) (next_handle s)
           (trace s ++ load_report (library_file s))).
Proof.
  unfold load_library. rewrite bind_get_state.
  unfold load_report, file_error, file_records.
  destruct (library_file s) as [| |j] eqn:Hf.
  - unfold ret. rewrite !app_nil_r. destruct s; simpl in *. now subst.
  - unfold try_except, json_load_file. unfold bind at 1.
    rewrite bind_get_state, Hf. unfold raise, print, emit. cbn.
    now rewrite Hf, app_nil_r.
  - unfold try_except, json_load_file. unfold bind at 1.
    rewrite bind_get_state, Hf. unfold ret at 1. unfold bind at 1.
    unfold lift at 1.
    destruct (iter (json_load j)) as [items|e].
    + rewrite load_loop.
      destruct (decode_error items); cbn; rewrite ?Hf, ?app_nil_r;
        reflexivity.
    + unfold print, emit. cbn. now rewrite Hf, app_nil_r.
Qed.

(** A new library holds exactly the records of the file. *)
Lemma library_init_state s :
  WallpaperLibrary_init s
  = (Ok tt,
     State (file_records (library_file s)) (active_processes s)
           (library_file s) (next_handle s)
           (trace s ++ load_report (library_file s)
              ++ [Say MsgLibraryFile;
                  Say (MsgLoaded (List.length (file_records (library_file s))))])).
Proof.
  unfold WallpaperLibrary_init. unfold bind at 1.
  unfold set_wallpapers at 1. cbv beta iota.
  rewrite (bind_ok _ _ _ _ _ (load_library_run _)).
  rewrite bind_print, bind_get_state. unfold print. rewrite emit_run.
  unfold with_trace. cbn. rewrite <- !app_assoc. reflexivity.
Qed.

Lemma library_init_run s :
  wallpapers (final WallpaperLibrary_init s) = file_records (library_file s).
Proof. unfold final. now rewrite library_init_state. Qed.

(* ------------------------------------------------------------------ *)
(** ** The library: loading *)

(** C4 fails as stated: loading into a library that holds a record keeps
    that record, although the file holds none. *)
Lemma load_library_keeps_old :
  file_records (library_file stale_state) = []
  /\ wallpapers (final load_library stale_state) = [photo]
  /\ wallpapers (final load_library stale_state)
     <> file_records (library_file stale_state).
Proof. vm_compute. repeat split. discriminate. Qed.

(** C4, as amended.  [load_library] ends without raising and appends the
    records decoded from the file to the list in memory, so every earlier
    record survives in front of them.  On an empty list, and so in a new
    library, the list afterwards is exactly the records of the file. *)
Theorem load_library_appends s :
  outcome load_library s = Ok tt
  /\ wallpapers (final load_library s)
     = wallpapers s ++ file_records (library_file s)
  /\ (wallpapers s = [] ->
      wallpapers (final load_library s) = file_records (library_file s))
  /\ wallpapers (final WallpaperLibrary_init s)
     = file_records (library_file s)
  /\ library_file (final load_library s) = library_file s.
Proof.
  unfold outcome, final. rewrite load_library_run. cbn [fst snd wallpapers].
  repeat split.
  - intros ->. reflexivity.
  - apply library_init_run.
Qed.

(** What decoding does with a dict, step by step. *)
Lemma decode_item_dict items :
  decode_item (PDict items)
  = match dict_lookup items "path" with
    | None => Raise KeyError
    | Some p =>
        match dict_lookup items "type" with
        | None => Raise KeyError
        | Some ty =>
            match WallpaperType_of ty with
            | Raise e => Raise e
            | Ok t =>
                Ok (new_config p t
                      (field_or items "monitor_id" (PInt (-1)))
                      (field_or items "properties" (PDict []))
                      (field_or items "enabled" (PBool true)))
            end
        end
    end.
Proof.
  unfold decode_item, subscript, get, field_or.
  destruct (dict_lookup items "path"); [|reflexivity].
  destruct (dict_lookup items "type"); [|reflexivity].
  destruct (WallpaperType_of p0); [|reflexivity].
  destruct (dict_lookup items "monitor_id");
    destruct (dict_lookup items "properties");
    destruct (dict_lookup items "enabled"); reflexivity.
Qed.


Lemma WallpaperType_of_value t : WallpaperType_of (PStr (value t)) = Ok t.
Proof. destruct t; reflexivity. Qed.

Lemma WallpaperType_of_ok v t :
  WallpaperType_of v = Ok t -> v = PStr (value t).
Proof.
  unfold WallpaperType_of. destruct v; try congruence.
  destruct (String.eqb_spec s "image"); [intros [= <-]; now subst|].
  destruct (String.eqb_spec s "video"); [intros [= <-]; now subst|].
  destruct (String.eqb_spec s "web"); [intros [= <-]; now subst|].
  destruct (String.eqb_spec s "stream"); [intros [= <-]; now subst|].
  congruence.
Qed.



Example load_minimal_item :
  decode_item (PDict minimal_item)
  = Ok (Config (PStr "/home/pi/Videos/waves.mp4") VIDEO (PInt (-1)) (PDict [])
               (PBool true)).
Proof. reflexivity. Qed.

(* ------------------------------------------------------------------ *)
(** ** The library: adding and saving *)

Lemma append_wallpaper_run config s :
  append_wallpaper config s
  = (Ok tt, State (wallpapers s ++ [config]) (active_processes s)
                  (library_file s) (next_handle s) (trace s)).
Proof. reflexivity. Qed.

(** [add_wallpaper] is the append, the save and one more line. *)
Lemma add_wallpaper_run p kind s :
  add_wallpaper p kind s
  = let t := match kind with None => _detect_type p | Some t => t end in
    let config := Config (PStr p) t (PInt (-1)) (PDict []) (PBool true) in
    (Ok config,
     with_trace
       (snd (save_library
               (State (wallpapers s ++ [config]) (active_processes s)
                      (library_file s) (next_handle s) (trace s))))
       [Say (MsgAdded (PurePath.name p) (value t))]).
Proof.
  unfold add_wallpaper.
  rewrite (bind_ok _ _ _ _ _ (append_wallpaper_run _ _)).
  rewrite (bind_ok _ _ _ _ _ (save_library_run _)).
  rewrite bind_print, save_library_run. reflexivity.
Qed.

(** C10.  [add_wallpaper] returns a record with the given path, the given
    or inferred kind, monitor [-1], a new empty dict as properties (not
    [None]) and [enabled = True], and the list afterwards is the list
    before with that one record at its end: one record longer, and every
    earlier record at its earlier place. *)
Theorem add_wallpaper_appends p kind s :
  let t := match kind with None => _detect_type p | Some t => t end in
  let config := Config (PStr p) t (PInt (-1)) (PDict []) (PBool true) in
  outcome (add_wallpaper p kind) s = Ok config
  /\ wallpapers (final (add_wallpaper p kind) s) = wallpapers s ++ [config]
  /\ List.length (wallpapers (final (add_wallpaper p kind) s))
     = S (List.length (wallpapers s))
  /\ (forall i w, nth_error (wallpapers s) i = Some w ->
                  nth_error (wallpapers (final (add_wallpaper p kind) s)) i
                  = Some w)
  /\ nth_error (wallpapers (final (add_wallpaper p kind) s))
               (List.length (wallpapers s)) = Some config.
Proof.
  intros t config.
  assert (Hrun : outcome (add_wallpaper p kind) s = Ok config
                 /\ wallpapers (final (add_wallpaper p kind) s)
                    = wallpapers s ++ [config]).
  { unfold outcome, final. rewrite add_wallpaper_run. cbv zeta.
    rewrite save_library_run. cbn [fst snd]. split; [reflexivity|].
    match goal with
    | |- context [library_document ?ws] => destruct (library_document ws)
    end; reflexivity. }
  destruct Hrun as [Hout Hws]. rewrite Hws.
  repeat split.
  - exact Hout.
  - rewrite length_app. simpl. lia.
  - intros i w Hi. rewrite nth_error_app1; [exact Hi|].
    apply nth_error_Some. congruence.
  - rewrite nth_error_app2, Nat.sub_diag; [reflexivity | lia].
Qed.

(** The encoder goes through a list element by element. *)
Lemma traverse_Forall2 {A B : Type} (f : A -> option B) xs ys :
  traverse f xs = Some ys <-> Forall2 (fun x y => f x = Some y) xs ys.
Proof.
  revert ys. induction xs as [|x xs IH]; intros ys; simpl.
  - split.
    + intros [= <-]. constructor.
    + intros H. inversion H. reflexivity.
  - split.
    + destruct (f x) as [y|] eqn:Hx; [|discriminate].
      destruct (traverse f xs) as [ys'|]; [|discriminate].
      intros [= <-]. constructor; [assumption | now apply IH].
    + intros H. inversion H as [|? y ? ys' Hx Hrest]; subst.
      rewrite Hx. apply IH in Hrest. now rewrite Hrest.
Qed.

Lemma json_serializable_dump v :
  json_serializable v = true -> exists j, json_dump v = Some j.
Proof.
  unfold json_serializable. destruct (json_dump v) as [j|]; [|discriminate].
  intros _. now exists j.
Qed.

(** The object written for a record whose fields are all accepted. *)
Lemma record_dict_dump w jp jm jprops je :
  json_dump (path w) = Some jp ->
  json_dump (monitor_id w) = Some jm ->
  json_dump (properties w) = Some jprops ->
  json_dump (enabled w) = Some je ->
  json_dump (record_dict w)
  = Some (JObj [("path", jp);
                ("type", JStr (value (wallpaper_type w)));
                ("monitor_id", jm);
                ("properties", jprops);
                ("enabled", je)]).
Proof.
  intros Hp Hm Hprops He. unfold record_dict. simpl.
  rewrite Hp, Hm, Hprops, He. reflexivity.
Qed.

Lemma library_document_serializable ws :
  Forall (fun w => record_serializable w = true) ws ->
  exists objs,
    library_document ws = Some (JArr objs) /\ Forall2 stored_as ws objs.
Proof.
  intros Hall. unfold library_document.
  enough (exists objs, traverse json_dump (map record_dict ws) = Some objs
                       /\ Forall2 stored_as ws objs) as [objs [H1 H2]].
  { exists objs. split; [|assumption]. simpl. now rewrite H1. }
  induction Hall as [|w ws Hw _ [objs [IH1 IH2]]].
  - exists []. split; [reflexivity | constructor].
  - unfold record_serializable in Hw. rewrite !andb_true_iff in Hw.
    destruct Hw as [[[Hp Hm] Hprops] He].
    destruct (json_serializable_dump _ Hp) as [jp Hjp].
    destruct (json_serializable_dump _ Hm) as [jm Hjm].
    destruct (json_serializable_dump _ Hprops) as [jprops Hjprops].
    destruct (json_serializable_dump _ He) as [je Hje].
    eexists. split.
    + cbn [map traverse].
      rewrite (record_dict_dump w jp jm jprops je Hjp Hjm Hjprops Hje), IH1.
      reflexivity.
    + constructor; [|assumption]. now exists jp, jm, jprops, je.
Qed.

(** C8 fails as stated: with a record whose properties hold an object
    [json] cannot encode, [save_library] leaves a file that is no JSON
    array. *)
Lemma save_library_rejected :
  well_typed tagged = true
  /\ library_file (final save_library (library_of [photo; tagged])) = Malformed.
Proof. vm_compute. split; reflexivity. Qed.

(** C8, as amended.  For every library state whose records hold values
    [json.dump] accepts, [save_library] writes a JSON array with one
    object per record, in the order of the library; each object has
    exactly the members [path], [type], [monitor_id], [properties] and
    [enabled], with [type] the string value of the record's kind and the
    other members the encodings of the record's fields.  The list in
    memory is unchanged. *)
Theorem save_library_writes s :
  Forall (fun w => record_serializable w = true) (wallpapers s) ->
  exists objs,
    library_file (final save_library s) = Document (JArr objs)
    /\ Forall2 stored_as (wallpapers s) objs
    /\ List.length objs = List.length (wallpapers s)
    /\ outcome save_library s = Ok tt
    /\ wallpapers (final save_library s) = wallpapers s.
Proof.
  intros Hall. unfold outcome, final. rewrite save_library_run.
  destruct (library_document_serializable _ Hall) as [objs [-> Hobjs]].
  exists objs. cbn. repeat split; try assumption.
  symmetry. eapply Forall2_length. eassumption.
Qed.

Lemma save_library_writes_witness :
  Forall (fun w => record_serializable w = true)
         (wallpapers (library_of [photo; sized]))
  /\ exists objs,
       library_file (final save_library (library_of [photo; sized]))
       = Document (JArr objs)
       /\ List.length objs = 2.
Proof.
  assert (H : Forall (fun w => record_serializable w = true)
                     (wallpapers (library_of [photo; sized]))).
  { repeat constructor. }
  split; [exact H|].
  destruct (save_library_writes (library_of [photo; sized]) H)
    as [objs [H1 [_ [H2 _]]]].
  exists objs. split; [exact H1 | exact H2].
Defined.

(* ------------------------------------------------------------------ *)
(** ** The library: saving and loading back *)

(** Induction on Python values, with the elements of a list, a tuple or a
    dict covered by the hypothesis. *)
Lemma pyval_nested_ind (P : pyval -> Prop) :
  P PNone ->
  (forall b, P (PBool b)) ->
  (forall z, P (PInt z)) ->
  (forall s, P (PStr s)) ->
  (forall xs, Forall P xs -> P (PList xs)) ->
  (forall xs, Forall P xs -> P (PTuple xs)) ->
  (forall items, Forall (fun kv => P (snd kv)) items -> P (PDict items)) ->
  (forall id, P (PObject id)) ->
  forall v, P v.
Proof.
  intros HNone HBool HInt HStr HList HTuple HDict HObject.
  fix IH 1. intros [ | b | z | s | xs | xs | items | id].
  - exact HNone.
  - apply HBool.
  - apply HInt.
  - apply HStr.
  - apply HList. induction xs as [|x xs IHxs]; constructor;
      [apply IH | exact IHxs].
  - apply HTuple. induction xs as [|x xs IHxs]; constructor;
      [apply IH | exact IHxs].
  - apply HDict. induction items as [|[k x] items IHitems]; constructor;
      [apply IH | exact IHitems].
  - apply HObject.
Qed.

(** Setting a key the dict does not have puts the item at the end. *)
Lemma dict_set_fresh d k v :
  ~ In k (map fst d) -> dict_set d k v = d ++ [(k, v)].
Proof.
  induction d as [|[k' v'] d IH]; simpl; intros Hk.
  - reflexivity.
  - destruct (String.eqb_spec k' k) as [->|_].
    + exfalso. apply Hk. now left.
    + rewrite IH; [reflexivity|]. intros Hin. apply Hk. now right.
Qed.

Lemma distinct_cons k ks :
  distinct (k :: ks) = true <-> ~ In k ks /\ distinct ks = true.
Proof.
  simpl. rewrite andb_true_iff, negb_true_iff, mem_not_In. reflexivity.
Qed.

(** Filling a dict from members with pairwise different names keeps the
    members in their order. *)
Lemma fill_distinct items members :
  Forall2 (fun kv m => fst m = fst kv /\ json_load (snd m) = snd kv)
          items members ->
  forall acc,
    distinct (map fst items) = true ->
    (forall k, In k (map fst items) -> ~ In k (map fst acc)) ->
    fold_left (fun d m => dict_set d (fst m) (json_load (snd m))) members acc
    = acc ++ items.
Proof.
  induction 1 as [|[k v] m items members [Hk Hv] _ IH]; intros acc Hd Hacc.
  - simpl. now rewrite app_nil_r.
  - simpl in *. rewrite Hk, Hv.
    apply distinct_cons in Hd. destruct Hd as [Hfresh Hd].
    rewrite dict_set_fresh by (apply Hacc; now left).
    rewrite IH.
    + now rewrite <- app_assoc.
    + exact Hd.
    + intros k' Hin. rewrite map_app, in_app_iff. simpl.
      intros [Hin'|[<-|[]]].
      * apply (Hacc k'); [now right | assumption].
      * contradiction.
Qed.

(** A JSON-shaped value is written, and read back as itself. *)
Lemma json_roundtrip v :
  json_shaped v = true ->
  exists j, json_dump v = Some j /\ json_load j = v.
Proof.
  induction v as [ | b | z | s | xs IH | xs IH | items IH | id]
    using pyval_nested_ind; simpl; intros Hshape; try discriminate.
  - now exists JNull.
  - now exists (JBool b).
  - now exists (JInt z).
  - now exists (JStr s).
  - assert (exists js, traverse json_dump xs = Some js
                       /\ map json_load js = xs) as [js [Hdump Hload]].
    { induction IH as [|x xs Hx _ IHxs]; simpl in *.
      - now exists [].
      - apply andb_prop in Hshape. destruct Hshape as [H1 H2].
        destruct (Hx H1) as [j [Hj1 Hj2]].
        destruct (IHxs H2) as [js [Hjs1 Hjs2]].
        exists (j :: js). rewrite Hj1, Hjs1. simpl. now rewrite Hj2, Hjs2. }
    exists (JArr js). rewrite Hdump. simpl. now rewrite Hload.
  - apply andb_prop in Hshape. destruct Hshape as [Hd Hall].
    assert (exists members,
               traverse (fun kv => option_map (pair (fst kv))
                                              (json_dump (snd kv))) items
               = Some members
               /\ Forall2 (fun kv m => fst m = fst kv
                                       /\ json_load (snd m) = snd kv)
                          items members) as [members [Hdump Hload]].
    { clear Hd. induction IH as [|[k x] items Hx _ IHitems]; simpl in *.
      - exists []. split; [reflexivity | constructor].
      - apply andb_prop in Hall. destruct Hall as [H1 H2].
        destruct (Hx H1) as [j [Hj1 Hj2]].
        destruct (IHitems H2) as [members [Hm1 Hm2]].
        exists ((k, j) :: members). rewrite Hj1. simpl. rewrite Hm1.
        split; [reflexivity|]. constructor; [|assumption]. now split. }
    exists (JObj members). rewrite Hdump. simpl. split; [reflexivity|].
    f_equal. rewrite (fill_distinct items members Hload [] Hd).
    + reflexivity.
    + intros k _ [].
Qed.

(** A record of JSON-shaped fields is written as an object that decodes
    to the same record. *)
Lemma record_roundtrip w :
  record_shaped w = true ->
  exists j, json_dump (record_dict w) = Some j
            /\ decode_item (json_load j) = Ok w.
Proof.
  unfold record_shaped. intros H. rewrite !andb_true_iff in H.
  destruct H as [[[[Hp Hm] He] Hprops] Hdict].
  destruct (json_roundtrip _ Hp) as [jp [Hp1 Hp2]].
  destruct (json_roundtrip _ Hm) as [jm [Hm1 Hm2]].
  destruct (json_roundtrip _ He) as [je [He1 He2]].
  destruct (json_roundtrip _ Hprops) as [jprops [Hprops1 Hprops2]].
  eexists. split.
  - apply record_dict_dump; eassumption.
  - change (json_load (JObj [("path", jp);
                               ("type", JStr (value (wallpaper_type w)));
                               ("monitor_id", jm);
                               ("properties", jprops);
                               ("enabled", je)]))
      with (PDict [("path", json_load jp);
                   ("type", PStr (value (wallpaper_type w)));
                   ("monitor_id", json_load jm);
                   ("properties", json_load jprops);
                   ("enabled", json_load je)]).
    rewrite decode_item_dict.
    change (dict_lookup _ "path") with (Some (json_load jp)).
    change (dict_lookup _ "type")
      with (Some (PStr (value (wallpaper_type w)))).
    cbv beta iota. rewrite WallpaperType_of_value.
    unfold field_or.
    change (dict_lookup _ "monitor_id") with (Some (json_load jm)).
    change (dict_lookup _ "properties") with (Some (json_load jprops)).
    change (dict_lookup _ "enabled") with (Some (json_load je)).
    cbv beta iota. rewrite Hp2, Hm2, He2, Hprops2.
    destruct w as [p t m props en]; simpl in *.
    destruct props; try discriminate. reflexivity.
Qed.

Lemma library_roundtrip ws :
  Forall (fun w => record_shaped w = true) ws ->
  exists js, library_document ws = Some (JArr js)
             /\ decode_prefix (map json_load js) = ws.
Proof.
  intros Hall. unfold library_document.
  enough (exists js, traverse json_dump (map record_dict ws) = Some js
                     /\ decode_prefix (map json_load js) = ws)
    as [js [H1 H2]].
  { exists js. split; [|assumption]. simpl. now rewrite H1. }
  induction Hall as [|w ws Hw _ [js [IH1 IH2]]].
  - now exists [].
  - destruct (record_roundtrip w Hw) as [j [Hj1 Hj2]].
    exists (j :: js). cbn [map traverse decode_prefix].
    rewrite Hj1, IH1, Hj2, IH2. split; reflexivity.
Qed.

(** Saving and then making a new library from the file. *)
Lemma save_then_load_shaped s :
  Forall (fun w => record_shaped w = true) (wallpapers s) ->
  wallpapers (final (save_library ;; WallpaperLibrary_init) s) = wallpapers s.
Proof.
  intros Hall. unfold final.
  rewrite (bind_ok _ _ _ _ _ (save_library_run s)).
  destruct (library_roundtrip _ Hall) as [js [-> Hload]].
  change (snd (WallpaperLibrary_init ?st))
    with (final WallpaperLibrary_init st).
  rewrite library_init_run. cbn [library_file file_records json_load iter].
  exact Hload.
Qed.

Lemma well_typed_shaped w :
  well_typed w = true -> json_shaped (properties w) = true ->
  record_shaped w = true.
Proof.
  unfold well_typed, record_shaped.
  destruct (path w), (monitor_id w), (properties w), (enabled w);
    try discriminate; intros _ ->; reflexivity.
Qed.

(** C1 fails as stated: a properties map holding a tuple is accepted by
    [json.dump], but it comes back holding a list. *)
Lemma save_then_load_tuple :
  well_typed sized = true
  /\ json_serializable (properties sized) = true
  /\ wallpapers (final (save_library ;; WallpaperLibrary_init)
                       (library_of [sized]))
     = [Config (PStr "/home/pi/Pictures/hills.jpg") IMAGE (PInt (-1))
               (PDict [("size", PList [PInt 1920; PInt 1080])]) (PBool true)]
  /\ wallpapers (final (save_library ;; WallpaperLibrary_init)
                       (library_of [sized]))
     <> wallpapers (library_of [sized]).
Proof. vm_compute. repeat split. discriminate. Qed.

(** C1, as amended.  For every library whose records follow the field
    types of the dataclass and whose properties maps are JSON-shaped
    (string keys; as values [None], booleans, integers, strings, lists
    and such maps again, but no tuples), saving the library and then
    making a new library from the saved file yields the same list of
    records: the same length and the same record, field by field, at
    every position. *)
Theorem save_then_load_roundtrip s :
  Forall (fun w => well_typed w = true /\ json_shaped (properties w) = true)
         (wallpapers s) ->
  wallpapers (final (save_library ;; WallpaperLibrary_init) s) = wallpapers s
  /\ library_file (final (save_library ;; WallpaperLibrary_init) s)
     = match library_document (wallpapers s) with
       | Some j => Document j
       | None => Malformed
       end
  /\ library_document (wallpapers s) <> None.
Proof.
  intros Hall.
  assert (Hshaped : Forall (fun w => record_shaped w = true) (wallpapers s)).
  { eapply Forall_impl; [|exact Hall].
    intros w [H1 H2]. now apply well_typed_shaped. }
  split; [now apply save_then_load_shaped|]. split.
  - unfold final. rewrite (bind_ok _ _ _ _ _ (save_library_run s)).
    rewrite library_init_state.
    destruct (library_document (wallpapers s)); reflexivity.
  - destruct (library_roundtrip _ Hshaped) as [js [-> _]]. discriminate.
Qed.

Lemma save_then_load_roundtrip_witness :
  Forall (fun w => well_typed w = true /\ json_shaped (properties w) = true)
         (wallpapers (library_of [photo; clip]))
  /\ wallpapers (final (save_library ;; WallpaperLibrary_init)
                       (library_of [photo; clip]))
     = [photo; clip].
Proof.
  assert (H : Forall (fun w => well_typed w = true
                               /\ json_shaped (properties w) = true)
                     (wallpapers (library_of [photo; clip]))).
  { repeat constructor. }
  split; [exact H|].
  exact (proj1 (save_then_load_roundtrip (library_of [photo; clip]) H)).
Defined.

(* ------------------------------------------------------------------ *)
(** ** Kind inference *)

Lemma string_app_assoc (a b c : string) :
  ((a ++ b) ++ c = a ++ (b ++ c))%string.
Proof. induction a as [|x a IH]; simpl; [reflexivity | now rewrite IH]. Qed.

Lemma string_length_app (a b : string) :
  String.length (a ++ b) = String.length a + String.length b.
Proof. induction a as [|x a IH]; simpl; [reflexivity | now rewrite IH]. Qed.

Lemma occurs_app c (a b : string) :
  occurs c (a ++ b) = occurs c a || occurs c b.
Proof.
  induction a as [|x a IH]; simpl; [reflexivity|].
  now rewrite IH, orb_assoc.
Qed.

(** A string without the separator is one piece. *)
Lemma split_whole sep s : occurs sep s = false -> PyStr.split sep s = [s].
Proof.
  induction s as [|a s IH]; simpl; [reflexivity|].
  intros H. apply orb_false_elim in H. destruct H as [Ha Hs].
  rewrite Ha, (IH Hs). reflexivity.
Qed.

Lemma split_nonempty sep s : PyStr.split sep s <> [].
Proof.
  destruct s as [|a s]; simpl; [discriminate|].
  destruct (Ascii.eqb a sep); [discriminate|].
  destruct (PyStr.split sep s); discriminate.
Qed.

(** Splitting goes through a separator. *)
Lemma split_app sep (a b : string) :
  PyStr.split sep (a ++ String sep b) = PyStr.split sep a ++ PyStr.split sep b.
Proof.
  induction a as [|x a IH]; simpl.
  - now rewrite Ascii.eqb_refl.
  - destruct (Ascii.eqb x sep).
    + now rewrite IH.
    + rewrite IH. pose proof (split_nonempty sep a) as Hne.
      destruct (PyStr.split sep a); [contradiction | reflexivity].
Qed.

(** The position of the last occurrence, when nothing follows it. *)
Lemma rfind_last c (stem e : string) :
  occurs c e = false ->
  PyStr.rfind c (stem ++ String c e) = Z.of_nat (String.length stem).
Proof.
  intros He.
  assert (Hnone : PyStr.rfind c e = (-1)%Z).
  { induction e as [|a e IH]; simpl in *; [reflexivity|].
    apply orb_false_elim in He. destruct He as [Ha He].
    rewrite (IH He), Ha. reflexivity. }
  induction stem as [|a stem IH].
  - simpl. rewrite Hnone, Ascii.eqb_refl. reflexivity.
  - cbn [append PyStr.rfind String.length]. rewrite IH.
    destruct (Z.leb_spec 0 (Z.of_nat (String.length stem))); lia.
Qed.

Lemma slice_from_app (a b : string) :
  PyStr.slice_from (String.length a) (a ++ b) = b.
Proof. induction a as [|x a IH]; simpl; [now destruct b | exact IH]. Qed.

Lemma last_snoc {A : Type} (xs : list A) (x d : A) : last (xs ++ [x]) d = x.
Proof.
  induction xs as [|y xs IH]; [reflexivity|].
  simpl. destruct (xs ++ [x]) eqn:E; [now destruct xs | exact IH].
Qed.

(** The last component of a path that ends in a proper file name. *)
Lemma name_of_file (dir base : string) :
  (dir = "" \/ exists d, dir = (d ++ "/")%string) ->
  occurs "/" base = false -> base <> "" -> base <> "." ->
  PurePath.name (dir ++ base) = base.
Proof.
  intros Hdir Hslash Hne Hdot. unfold PurePath.name, PurePath.parts.
  assert (Hkeep : (negb (String.eqb base "") && negb (String.eqb base "."))%bool
                  = true).
  { apply andb_true_iff. split; apply negb_true_iff, String.eqb_neq;
      assumption. }
  destruct Hdir as [->|[d ->]].
  - simpl. rewrite (split_whole _ _ Hslash). simpl. now rewrite Hkeep.
  - rewrite string_app_assoc. simpl. rewrite split_app, filter_app.
    rewrite (split_whole _ _ Hslash). simpl. rewrite Hkeep.
    apply last_snoc.
Qed.

(** The suffix of a path that ends in an extension is that extension. *)
Lemma has_extension_suffix p ext :
  has_extension p ext -> PurePath.suffix p = ext.
Proof.
  intros [dir [stem [e [-> [-> [Hdir [Hstem [Hslash [He [Hdot Hslash']]]]]]]]]].
  assert (Hname : PurePath.name (dir ++ stem ++ String "." e)
                  = (stem ++ String "." e)%string).
  { apply name_of_file.
    - exact Hdir.
    - rewrite occurs_app. simpl. now rewrite Hslash, Hslash'.
    - destruct stem; [contradiction | discriminate].
    - destruct stem as [|a [|b stem]]; [contradiction| |discriminate].
      simpl. destruct e; [contradiction | discriminate]. }
  unfold PurePath.suffix. rewrite Hname. cbv zeta.
  rewrite (rfind_last _ _ _ Hdot). unfold PyStr.len.
  rewrite string_length_app. simpl String.length.
  assert (0 < String.length stem) by (destruct stem; [contradiction | simpl; lia]).
  assert (0 < String.length e) by (destruct e; [contradiction | simpl; lia]).
  replace ((0 <? Z.of_nat (String.length stem))%Z) with true
    by (symmetry; apply Z.ltb_lt; lia).
  replace ((Z.of_nat (String.length stem)
            <? Z.of_nat (String.length stem + S (String.length e)) - 1)%Z)
    with true by (symmetry; apply Z.ltb_lt; lia).
  simpl andb. cbv iota. rewrite Nat2Z.id. apply slice_from_app.
Qed.

(** C2 fails as stated: a path that starts with [http] and ends in an
    image extension is inferred as an image, not as web. *)
Lemma detect_type_http_image :
  PyStr.startswith "http://example.org/hills.png" "http" = true
  /\ _detect_type "http://example.org/hills.png" = IMAGE
  /\ _detect_type "http://example.org/hills.png" <> WEB.
Proof. vm_compute. repeat split. discriminate. Qed.

(** C2, as amended.  The inferred kind goes by the lower-cased extension
    of the last path component first: image for [.jpg], [.jpeg], [.png],
    [.bmp], [.gif]; video for [.mp4], [.avi], [.mkv], [.webm], [.mov];
    web for [.html], [.htm].  With any other extension, or none, the kind
    is web when the text of the path starts with [http] and image
    otherwise.  A path that ends in an extension [ext] has the lower case
    of [ext] as the extension looked at. *)
Theorem detect_type_by_extension p :
  (In (extension p) image_exts -> _detect_type p = IMAGE)
  /\ (In (extension p) video_exts -> _detect_type p = VIDEO)
  /\ (In (extension p) web_exts -> _detect_type p = WEB)
  /\ (~ In (extension p) image_exts -> ~ In (extension p) video_exts ->
      PyStr.startswith p "http" = true -> _detect_type p = WEB)
  /\ (~ In (extension p) image_exts -> ~ In (extension p) video_exts ->
      ~ In (extension p) web_exts -> PyStr.startswith p "http" = false ->
      _detect_type p = IMAGE)
  /\ (forall ext, has_extension p ext -> extension p = PyStr.lower ext).
Proof.
  unfold _detect_type, extension.
  set (ext := PyStr.lower (PurePath.suffix p)).
  repeat split.
  - intros H. apply mem_In in H. now rewrite H.
  - intros H.
    assert (Himg : PyStr.mem ext image_exts = false).
    { apply mem_not_In. intros Hin. revert H Hin. unfold video_exts, image_exts.
      simpl. intuition congruence. }
    apply mem_In in H. now rewrite Himg, H.
  - intros H.
    assert (Himg : PyStr.mem ext image_exts = false).
    { apply mem_not_In. intros Hin. revert H Hin. unfold web_exts, image_exts.
      simpl. intuition congruence. }
    assert (Hvid : PyStr.mem ext video_exts = false).
    { apply mem_not_In. intros Hin. revert H Hin. unfold web_exts, video_exts.
      simpl. intuition congruence. }
    apply mem_In in H. now rewrite Himg, Hvid, H.
  - intros Himg Hvid Hhttp.
    apply mem_not_In in Himg, Hvid. rewrite Himg, Hvid, Hhttp.
    now rewrite orb_true_r.
  - intros Himg Hvid Hweb Hhttp.
    apply mem_not_In in Himg, Hvid, Hweb. now rewrite Himg, Hvid, Hweb, Hhttp.
  - intros e He. subst ext. now rewrite (has_extension_suffix _ _ He).
Qed.

Example detect_upper_case : _detect_type "/media/usb/Clip.MP4" = VIDEO.
Proof. reflexivity. Qed.

(* ================================================================== *)
(** * Further properties of the library *)

(** ** Files that hold no array, and elements that cannot be decoded *)

Lemma decode_item_not_dict item :
  (forall items, item <> PDict items) -> decode_item item = Raise TypeError.
Proof.
  intros H. destruct item; try reflexivity. now destruct (H items).
Qed.

Lemma decode_prefix_not_dicts items :
  Forall (fun item => forall d, item <> PDict d) items ->
  decode_prefix items = [].
Proof.
  intros [|item rest H _]; [reflexivity|].
  simpl. now rewrite (decode_item_not_dict _ H).
Qed.

(** A document that is no array holds no record. *)
Lemma file_records_not_array j :
  (forall xs, j <> JArr xs) -> file_records (Document j) = [].
Proof.
  intros H. unfold file_records.
  destruct j as [ | b | z | str | xs | members]; try reflexivity.
  - cbn [json_load iter]. apply decode_prefix_not_dicts.
    apply Forall_map. apply Forall_forall. intros c _ d. discriminate.
  - now destruct (H xs).
  - cbn [json_load iter]. apply decode_prefix_not_dicts.
    apply Forall_map. apply Forall_forall. intros kv _ d. discriminate.
Qed.

(** X1.  [load_library] adds records only from a file that holds a JSON
    array: with no file it does nothing at all, with a file that is no
    JSON document it keeps the list and prints the decoding error, and with
    a document that is no array (an object, a string, a number, ...) the
    list is as before. *)
Theorem load_library_needs_array s :
  (library_file s = Absent -> final load_library s = s)
  /\ (library_file s = Malformed ->
      wallpapers (final load_library s) = wallpapers s
      /\ added (trace s) (trace (final load_library s))
         = [Say (MsgLoadError JSONDecodeError)])
  /\ (forall j, library_file s = Document j -> (forall xs, j <> JArr xs) ->
                wallpapers (final load_library s) = wallpapers s).
Proof.
  unfold final. rewrite load_library_run. cbn [snd wallpapers trace].
  split; [|split].
  - intros Hf. unfold load_report. rewrite Hf. cbn.
    rewrite !app_nil_r. destruct s; simpl in *. now subst.
  - intros Hf. unfold load_report, added. rewrite Hf. cbn.
    rewrite app_nil_r. split; [reflexivity|].
    rewrite skipn_app, skipn_all, Nat.sub_diag. reflexivity.
  - intros j Hf Hj. rewrite Hf, (file_records_not_array j Hj).
    apply app_nil_r.
Qed.

Lemma decode_prefix_app good bad rest e :
  Forall (fun item => exists c, decode_item item = Ok c) good ->
  decode_item bad = Raise e ->
  decode_prefix (good ++ bad :: rest) = decode_prefix good
  /\ decode_error (good ++ bad :: rest) = Some e
  /\ List.length (decode_prefix good) = List.length good.
Proof.
  intros Hgood Hbad.
  induction Hgood as [|item good [c Hc] _ [IH1 [IH2 IH3]]]; simpl.
  - now rewrite Hbad.
  - rewrite Hc. simpl. now rewrite IH1, IH2, IH3.
Qed.

(** X2.  Loading stops at the first element that cannot be decoded: the
    records of the elements before it are added, the error is printed,
    and every element after it is dropped, decodable or not. *)
Theorem load_library_stops_at_bad s good bad rest e :
  library_file s = Document (JArr (good ++ bad :: rest)) ->
  Forall (fun j => exists c, decode_item (json_load j) = Ok c) good ->
  decode_item (json_load bad) = Raise e ->
  wallpapers (final load_library s)
  = wallpapers s ++ decode_prefix (map json_load good)
  /\ List.length (wallpapers (final load_library s))
     = List.length (wallpapers s) + List.length good
  /\ added (trace s) (trace (final load_library s)) = [Say (MsgLoadError e)].
Proof.
  intros Hf Hgood Hbad. unfold final. rewrite load_library_run.
  cbn [snd wallpapers trace]. unfold load_report, file_error, file_records.
  rewrite Hf. cbn [json_load iter]. rewrite map_app. cbn [map].
  assert (Hitems : Forall (fun item => exists c, decode_item item = Ok c)
                          (map json_load good)).
  { rewrite Forall_map. exact Hgood. }
  destruct (decode_prefix_app _ _ (map json_load rest) _ Hitems Hbad)
    as [-> [-> Hlen]].
  split; [reflexivity|]. split.
  - now rewrite length_app, Hlen, length_map.
  - unfold added. rewrite skipn_app, skipn_all, Nat.sub_diag. reflexivity.
Qed.

Lemma load_library_stops_at_bad_witness :
  wallpapers (final load_library half_read_state)
  = [photo; Config (PStr "a.png") IMAGE (PInt (-1)) (PDict []) (PBool true)].
Proof.
  refine (proj1 (load_library_stops_at_bad half_read_state
                   [JObj [("path", JStr "a.png"); ("type", JStr "image")]]
                   (JObj [("path", JStr "b.png")])
                   [JObj [("path", JStr "c.mp4"); ("type", JStr "video")]]
                   KeyError eq_refl _ eq_refl)).
  repeat constructor. eexists. reflexivity.
Defined.

(** ** What is loaded can be saved and loaded again *)

(** Induction on JSON documents, with the elements of an array and the
    members of an object covered by the hypothesis. *)
Lemma json_nested_ind (P : json -> Prop) :
  P JNull ->
  (forall b, P (JBool b)) ->
  (forall z, P (JInt z)) ->
  (forall s, P (JStr s)) ->
  (forall xs, Forall P xs -> P (JArr xs)) ->
  (forall members, Forall (fun m => P (snd m)) members -> P (JObj members)) ->
  forall j, P j.
Proof.
  intros HNull HBool HInt HStr HArr HObj.
  fix IH 1. intros [ | b | z | s | xs | members].
  - exact HNull.
  - apply HBool.
  - apply HInt.
  - apply HStr.
  - apply HArr. induction xs as [|x xs IHxs]; constructor;
      [apply IH | exact IHxs].
  - apply HObj. induction members as [|[k x] members IHm]; constructor;
      [apply IH | exact IHm].
Qed.

Lemma mem_app x xs ys :
  PyStr.mem x (xs ++ ys) = PyStr.mem x xs || PyStr.mem x ys.
Proof. unfold PyStr.mem. apply existsb_app. Qed.

Lemma distinct_snoc ks k :
  distinct ks = true -> ~ In k ks -> distinct (ks ++ [k]) = true.
Proof.
  induction ks as [|k' ks IH]; intros Hd Hk; [reflexivity|].
  apply distinct_cons in Hd. destruct Hd as [Hfresh Hd].
  cbn [app]. apply distinct_cons. split.
  - rewrite in_app_iff. intros [Hin|[->|[]]]; [now apply Hfresh|].
    apply Hk. now left.
  - apply IH; [exact Hd|]. intros Hin. apply Hk. now right.
Qed.

(** Setting a key keeps the keys pairwise different and the values
    JSON-shaped. *)
Lemma dict_set_keys d k v :
  map fst (dict_set d k v)
  = if PyStr.mem k (map fst d) then map fst d else map fst d ++ [k].
Proof.
  induction d as [|[k' v'] d IH]; [reflexivity|].
  cbn [dict_set map fst PyStr.mem existsb]. fold (PyStr.mem k (map fst d)).
  rewrite (String.eqb_sym k k').
  destruct (String.eqb k' k); cbn [orb map fst]; [reflexivity|].
  rewrite IH. now destruct (PyStr.mem k (map fst d)).
Qed.

Lemma dict_set_distinct d k v :
  distinct (map fst d) = true -> distinct (map fst (dict_set d k v)) = true.
Proof.
  intros Hd. rewrite dict_set_keys.
  destruct (PyStr.mem k (map fst d)) eqn:Hk; [exact Hd|].
  apply distinct_snoc; [exact Hd | now apply mem_not_In].
Qed.

Lemma dict_set_shaped d k v :
  forallb (fun kv => json_shaped (snd kv)) d = true ->
  json_shaped v = true ->
  forallb (fun kv => json_shaped (snd kv)) (dict_set d k v) = true.
Proof.
  intros Hd Hv. induction d as [|[k' v'] d IH]; simpl in *.
  - now rewrite Hv.
  - apply andb_prop in Hd. destruct Hd as [H1 H2].
    destruct (String.eqb k' k); simpl.
    + now rewrite Hv, H2.
    + now rewrite H1, (IH H2).
Qed.

(** Whatever [json.load] returns is JSON-shaped. *)
Lemma json_load_shaped j : json_shaped (json_load j) = true.
Proof.
  induction j as [ | b | z | s | xs IH | members IH] using json_nested_ind;
    try reflexivity.
  - cbn [json_load json_shaped]. rewrite forallb_forall. intros v Hv.
    apply in_map_iff in Hv. destruct Hv as [x [<- Hx]].
    rewrite Forall_forall in IH. now apply IH.
  - cbn [json_load json_shaped].
    enough (forall acc,
               distinct (map fst acc) = true ->
               forallb (fun kv => json_shaped (snd kv)) acc = true ->
               let d := fold_left
                          (fun d m => dict_set d (fst m) (json_load (snd m)))
                          members acc in
               distinct (map fst d) = true
               /\ forallb (fun kv => json_shaped (snd kv)) d = true) as H.
    { destruct (H [] eq_refl eq_refl) as [H1 H2]. now rewrite H1, H2. }
    induction IH as [|m members Hm _ IHm]; intros acc Hd Hs; cbn [fold_left].
    + now split.
    + apply IHm; [now apply dict_set_distinct | now apply dict_set_shaped].
Qed.

Lemma dict_lookup_shaped items k v :
  forallb (fun kv => json_shaped (snd kv)) items = true ->
  dict_lookup items k = Some v -> json_shaped v = true.
Proof.
  induction items as [|[k' v'] items IH]; simpl; [discriminate|].
  intros H. apply andb_prop in H. destruct H as [H1 H2].
  destruct (String.eqb k' k); [now intros [= <-] | now apply IH].
Qed.

Lemma field_or_shaped items k default :
  forallb (fun kv => json_shaped (snd kv)) items = true ->
  json_shaped default = true ->
  json_shaped (field_or items k default) = true.
Proof.
  intros Hitems Hd. unfold field_or.
  destruct (dict_lookup items k) eqn:Hk; [|exact Hd].
  eapply dict_lookup_shaped; eassumption.
Qed.

(** A record decoded from JSON-shaped data is plain. *)
Lemma decode_item_plain item c :
  json_shaped item = true -> decode_item item = Ok c -> record_plain c = true.
Proof.
  intros Hshape Hc. destruct item; try discriminate.
  rewrite decode_item_dict in Hc. cbn [json_shaped] in Hshape.
  apply andb_prop in Hshape. destruct Hshape as [_ Hitems].
  destruct (dict_lookup items "path") as [p|] eqn:Hp; [|discriminate].
  destruct (dict_lookup items "type") as [ty|]; [|discriminate].
  destruct (WallpaperType_of ty) as [t|]; [|discriminate].
  injection Hc as <-.
  pose proof (dict_lookup_shaped _ _ _ Hitems Hp) as Hpath.
  pose proof (field_or_shaped items "monitor_id" (PInt (-1)) Hitems eq_refl)
    as Hm.
  pose proof (field_or_shaped items "properties" (PDict []) Hitems eq_refl)
    as Hprops.
  pose proof (field_or_shaped items "enabled" (PBool true) Hitems eq_refl)
    as Hen.
  unfold record_plain, has_properties, new_config.
  cbn [path monitor_id enabled properties].
  rewrite Hpath, Hm, Hen. cbn [andb].
  destruct (field_or items "properties" (PDict [])); try discriminate;
    try reflexivity; cbn [andb]; now rewrite Hprops.
Qed.

Lemma decode_prefix_plain items :
  Forall (fun item => json_shaped item = true) items ->
  Forall (fun w => record_plain w = true) (decode_prefix items).
Proof.
  induction 1 as [|item items Hitem _ IH]; simpl; [constructor|].
  destruct (decode_item item) as [c|] eqn:Hc; constructor; [|exact IH].
  eapply decode_item_plain; eassumption.
Qed.

(** The records of every library file are plain. *)
Lemma file_records_plain f :
  Forall (fun w => record_plain w = true) (file_records f).
Proof.
  unfold file_records. destruct f as [| |j]; try constructor.
  pose proof (json_load_shaped j) as Hj.
  destruct (json_load j) as [ | | | str | xs | xs | items | ]; cbn [iter];
    try constructor.
  - apply decode_prefix_plain. apply Forall_map, Forall_forall.
    intros; reflexivity.
  - apply decode_prefix_plain. cbn [json_shaped] in Hj.
    now apply Forall_forall, forallb_forall.
  - discriminate.
  - apply decode_prefix_plain. apply Forall_map, Forall_forall.
    intros; reflexivity.
Qed.

(** A plain record is written as an object that decodes to the same
    record. *)
Lemma record_plain_roundtrip w :
  record_plain w = true ->
  exists j, json_dump (record_dict w) = Some j
            /\ decode_item (json_load j) = Ok w.
Proof.
  unfold record_plain. intros H. rewrite !andb_true_iff in H.
  destruct H as [[[[Hp Hm] He] Hprops] Hsome].
  destruct (json_roundtrip _ Hp) as [jp [Hp1 Hp2]].
  destruct (json_roundtrip _ Hm) as [jm [Hm1 Hm2]].
  destruct (json_roundtrip _ He) as [je [He1 He2]].
  destruct (json_roundtrip _ Hprops) as [jprops [Hprops1 Hprops2]].
  eexists. split.
  - apply record_dict_dump; eassumption.
  - change (json_load (JObj [("path", jp);
                               ("type", JStr (value (wallpaper_type w)));
                               ("monitor_id", jm);
                               ("properties", jprops);
                               ("enabled", je)]))
      with (PDict [("path", json_load jp);
                   ("type", PStr (value (wallpaper_type w)));
                   ("monitor_id", json_load jm);
                   ("properties", json_load jprops);
                   ("enabled", json_load je)]).
    rewrite decode_item_dict.
    change (dict_lookup _ "path") with (Some (json_load jp)).
    change (dict_lookup _ "type")
      with (Some (PStr (value (wallpaper_type w)))).
    cbv beta iota. rewrite WallpaperType_of_value.
    unfold field_or.
    change (dict_lookup _ "monitor_id") with (Some (json_load jm)).
    change (dict_lookup _ "properties") with (Some (json_load jprops)).
    change (dict_lookup _ "enabled") with (Some (json_load je)).
    cbv beta iota. rewrite Hp2, Hm2, He2, Hprops2.
    unfold has_properties in Hsome.
    destruct w as [p t m props en]; simpl in *.
    destruct props; try discriminate; reflexivity.
Qed.

Lemma library_plain_roundtrip ws :
  Forall (fun w => record_plain w = true) ws ->
  exists js, library_document ws = Some (JArr js)
             /\ decode_prefix (map json_load js) = ws
             /\ decode_error (map json_load js) = None.
Proof.
  intros Hall. unfold library_document.
  enough (exists js, traverse json_dump (map record_dict ws) = Some js
                     /\ decode_prefix (map json_load js) = ws
                     /\ decode_error (map json_load js) = None)
    as [js [H1 [H2 H3]]].
  { exists js. split; [|now split]. simpl. now rewrite H1. }
  induction Hall as [|w ws Hw _ [js [IH1 [IH2 IH3]]]].
  - now exists [].
  - destruct (record_plain_roundtrip w Hw) as [j [Hj1 Hj2]].
    exists (j :: js). cbn [map traverse decode_prefix decode_error].
    rewrite Hj1, IH1, Hj2, IH2, IH3. repeat split.
Qed.

(** After a save of plain records the file holds exactly the list. *)
Lemma save_plain_in_sync s :
  Forall (fun w => record_plain w = true) (wallpapers s) ->
  file_records (library_file (final save_library s)) = wallpapers s
  /\ file_error (library_file (final save_library s)) = None.
Proof.
  intros Hall. unfold final. rewrite save_library_run.
  destruct (library_plain_roundtrip _ Hall) as [js [-> [H1 H2]]].
  cbn [snd library_file file_records file_error json_load iter].
  now split.
Qed.

Lemma new_record_plain p t :
  record_plain (new_config (PStr p) t default_monitor_id default_properties
                           default_enabled) = true.
Proof. reflexivity. Qed.

(** X3.  The library only ever holds plain records: a new library holds
    plain records whatever the file holds, and [load_library] and
    [add_wallpaper] keep it so.  In particular no record they make has
    [None] as its properties or holds a value [json.dump] rejects. *)
Theorem library_stays_plain :
  (forall s,
      Forall (fun w => record_plain w = true)
             (wallpapers (final WallpaperLibrary_init s)))
  /\ (forall s,
         Forall (fun w => record_plain w = true) (wallpapers s) ->
         Forall (fun w => record_plain w = true)
                (wallpapers (final load_library s)))
  /\ (forall s p kind,
         Forall (fun w => record_plain w = true) (wallpapers s) ->
         Forall (fun w => record_plain w = true)
                (wallpapers (final (add_wallpaper p kind) s)))
  /\ (forall w, record_plain w = true ->
                properties w <> PNone /\ record_serializable w = true).
Proof.
  split; [|split; [|split]].
  - intros s. rewrite library_init_run. apply file_records_plain.
  - intros s Hs. unfold final. rewrite load_library_run. cbn [snd wallpapers].
    apply Forall_app. split; [exact Hs | apply file_records_plain].
  - intros s p kind Hs. unfold final. rewrite add_wallpaper_run. cbv zeta.
    rewrite save_library_run. cbn [snd].
    match goal with
    | |- context [library_document ?ws] => destruct (library_document ws)
    end; cbn [with_trace wallpapers]; apply Forall_app;
      (split; [exact Hs | now repeat constructor]).
  - intros w Hw. unfold record_plain in Hw. rewrite !andb_true_iff in Hw.
    destruct Hw as [[[[Hp Hm] He] Hprops] Hsome]. split.
    + unfold has_properties in Hsome. now destruct (properties w).
    + unfold record_serializable, json_serializable.
      destruct (json_roundtrip _ Hp) as [? [-> _]].
      destruct (json_roundtrip _ Hm) as [? [-> _]].
      destruct (json_roundtrip _ He) as [? [-> _]].
      destruct (json_roundtrip _ Hprops) as [? [-> _]]. reflexivity.
Qed.

(** X4.  Whatever the library file holds, the library made from it comes
    back unchanged when it is saved and a new library is made from the
    saved file; and then the save prints no error. *)
Theorem loaded_library_persists s :
  wallpapers (final (save_library ;; WallpaperLibrary_init)
                    (final WallpaperLibrary_init s))
  = wallpapers (final WallpaperLibrary_init s)
  /\ file_error (library_file (final save_library
                                      (final WallpaperLibrary_init s)))
     = None.
Proof.
  assert (Hplain : Forall (fun w => record_plain w = true)
                          (wallpapers (final WallpaperLibrary_init s))).
  { rewrite library_init_run. apply file_records_plain. }
  destruct (save_plain_in_sync _ Hplain) as [Hsync Herr].
  split; [|exact Herr].
  unfold final at 1. rewrite (bind_ok _ _ _ _ _ (save_library_run _)).
  change (snd (WallpaperLibrary_init ?st))
    with (final WallpaperLibrary_init st).
  rewrite library_init_run.
  unfold final in Hsync at 1. rewrite save_library_run in Hsync.
  exact Hsync.
Qed.

(** X5.  On a library of plain records [add_wallpaper] leaves the file in
    step with the list: the file then holds exactly the records in memory,
    the new one last, so a new library made from it has the same list. *)
Theorem add_wallpaper_persists p kind s :
  Forall (fun w => record_plain w = true) (wallpapers s) ->
  file_records (library_file (final (add_wallpaper p kind) s))
  = wallpapers (final (add_wallpaper p kind) s)
  /\ wallpapers (final WallpaperLibrary_init (final (add_wallpaper p kind) s))
     = wallpapers s
         ++ [Config (PStr p)
                    (match kind with None => _detect_type p | Some t => t end)
                    (PInt (-1)) (PDict []) (PBool true)].
Proof.
  intros Hs.
  assert (Hsync : file_records (library_file (final (add_wallpaper p kind) s))
                  = wallpapers (final (add_wallpaper p kind) s)
                  /\ wallpapers (final (add_wallpaper p kind) s)
                     = wallpapers s
                         ++ [Config (PStr p)
                                    (match kind with
                                     | None => _detect_type p
                                     | Some t => t
                                     end)
                                    (PInt (-1)) (PDict []) (PBool true)]).
  { unfold final. rewrite add_wallpaper_run. cbv zeta. cbn [snd].
    match goal with
    | |- context [save_library ?st] =>
        assert (Hplain : Forall (fun w => record_plain w = true)
                                (wallpapers st))
    end.
    { cbn [wallpapers]. apply Forall_app. split; [exact Hs|].
      now repeat constructor. }
    destruct (save_plain_in_sync _ Hplain) as [H _].
    unfold final in H. cbn [with_trace library_file wallpapers].
    rewrite H. rewrite save_library_run.
    match goal with
    | |- context [library_document ?ws] => destruct (library_document ws)
    end; split; reflexivity. }
  destruct Hsync as [H1 H2]. split; [exact H1|].
  now rewrite library_init_run, H1, H2.
Qed.

Lemma add_wallpaper_persists_witness :
  wallpapers (final WallpaperLibrary_init
                    (final (add_wallpaper "/home/pi/Videos/waves.mp4" None)
                           (library_of [photo])))
  = [photo; clip].
Proof.
  refine (proj2 (add_wallpaper_persists "/home/pi/Videos/waves.mp4" None
                   (library_of [photo]) _)).
  repeat constructor.
Defined.

Lemma traverse_none {A B : Type} (f : A -> option B) xs :
  Exists (fun x => f x = None) xs -> traverse f xs = None.
Proof.
  induction 1 as [x xs Hx|x xs _ IH]; simpl.
  - now rewrite Hx.
  - rewrite IH. now destruct (f x).
Qed.

Lemma record_dict_rejected w :
  record_serializable w = false -> json_dump (record_dict w) = None.
Proof.
  unfold record_serializable, json_serializable, record_dict. simpl.
  destruct (json_dump (path w)); [|reflexivity].
  destruct (json_dump (monitor_id w)); [|reflexivity].
  destruct (json_dump (properties w)); [|reflexivity].
  destruct (json_dump (enabled w)); [discriminate | reflexivity].
Qed.

(** X6.  When some record holds a value [json.dump] rejects,
    [save_library] still ends normally and keeps the list in memory, but
    it prints the error and leaves a file that holds no record any more,
    whatever it held before: a new library made from it is empty. *)
Theorem save_library_failure_empties_file s :
  Exists (fun w => record_serializable w = false) (wallpapers s) ->
  outcome save_library s = Ok tt
  /\ wallpapers (final save_library s) = wallpapers s
  /\ library_file (final save_library s) = Malformed
  /\ added (trace s) (trace (final save_library s))
     = [Say (MsgSaveError TypeError)]
  /\ wallpapers (final (save_library ;; WallpaperLibrary_init) s) = [].
Proof.
  intros Hbad.
  assert (Hdoc : library_document (wallpapers s) = None).
  { unfold library_document. simpl.
    rewrite traverse_none; [reflexivity|].
    apply Exists_exists in Hbad. destruct Hbad as [w [Hin Hw]].
    apply Exists_exists. exists (record_dict w). split.
    - now apply in_map.
    - now apply record_dict_rejected. }
  unfold outcome, final.
  rewrite (bind_ok _ _ _ _ _ (save_library_run s)), save_library_run, Hdoc.
  cbn [fst snd wallpapers library_file trace].
  repeat split.
  unfold added. rewrite skipn_app, skipn_all, Nat.sub_diag. reflexivity.
Qed.

Lemma save_library_failure_witness :
  wallpapers (final (save_library ;; WallpaperLibrary_init)
                    (State [photo; tagged] [] (Document (JArr [])) 0 []))
  = [].
Proof.
  refine (proj2 (proj2 (proj2 (proj2
            (save_library_failure_empties_file
               (State [photo; tagged] [] (Document (JArr [])) 0 []) _))))).
  apply Exists_cons_tl. apply Exists_cons_hd. reflexivity.
Defined.

(* ================================================================== *)
(** * Further properties of the manager *)

(** ** Which events a program adds *)

Lemma adds_only_ret {A : Type} Q (a : A) : adds_only Q (ret a).
Proof. intros s. exists []. now rewrite with_trace_nil. Qed.

Lemma adds_only_raise {A : Type} Q (e : exn) : adds_only Q (@raise A e).
Proof. intros s. exists []. now rewrite with_trace_nil. Qed.

Lemma adds_only_lift {A : Type} Q (r : result A) : adds_only Q (lift r).
Proof. intros s. exists []. now rewrite with_trace_nil. Qed.

Lemma adds_only_get_state Q : adds_only Q get_state.
Proof. intros s. exists []. now rewrite with_trace_nil. Qed.

Lemma adds_only_emit (Q : event -> Prop) e : Q e -> adds_only Q (emit e).
Proof. intros He s. exists [e]. split; [reflexivity | now constructor]. Qed.

Lemma adds_only_bind {A B : Type} Q (c : M A) (k : A -> M B) :
  adds_only Q c -> (forall a, adds_only Q (k a)) -> adds_only Q (bind c k).
Proof.
  intros Hc Hk s. unfold bind. destruct (Hc s) as [evs [Hs Hevs]].
  destruct (c s) as [[a|e] s1]; simpl in *; subst s1.
  - destruct (Hk a (with_trace s evs)) as [evs' [-> Hevs']].
    exists (evs ++ evs'). rewrite with_trace_app. split; [reflexivity|].
    now apply Forall_app.
  - now exists evs.
Qed.

Lemma adds_only_try_except Q body handler :
  adds_only Q body -> (forall e, adds_only Q (handler e)) ->
  adds_only Q (try_except body handler).
Proof.
  intros Hb Hh s. unfold try_except. destruct (Hb s) as [evs [Hs Hevs]].
  destruct (body s) as [[a|e] s1]; simpl in *; subst s1.
  - now exists evs.
  - destruct (Hh e (with_trace s evs)) as [evs' [-> Hevs']].
    exists (evs ++ evs'). rewrite with_trace_app. split; [reflexivity|].
    now apply Forall_app.
Qed.

Ltac adds_only_step :=
  first
    [ apply adds_only_ret | apply adds_only_raise | apply adds_only_lift
    | apply adds_only_get_state
    | apply adds_only_emit; exact I
    | apply adds_only_bind; [| intros ?]
    | apply adds_only_try_except; [| intros ?]
    | match goal with
      | |- adds_only _ (match ?x with _ => _ end) => destruct x
      end ].

Section ManagerEvents.

Variable os : env.

(** Setting an image prints lines and runs commands, nothing else. *)
Lemma image_adds p : adds_only is_say_or_exec (_set_image_wallpaper os p).
Proof.
  unfold _set_image_wallpaper, print, os_path_exists, subprocess_run,
    decode_stderr.
  repeat adds_only_step.
Qed.

(** Setting a web wallpaper only prints lines. *)
Lemma web_adds p : adds_only is_say (_set_web_wallpaper os p).
Proof.
  unfold _set_web_wallpaper, print, Path_exists.
  repeat adds_only_step.
Qed.

Lemma terminated_app a b : terminated (a ++ b) = terminated a ++ terminated b.
Proof. apply flat_map_app. Qed.

Lemma killed_app a b : killed (a ++ b) = killed a ++ killed b.
Proof. apply flat_map_app. Qed.

Lemma execs_app a b : execs (a ++ b) = execs a ++ execs b.
Proof. apply flat_map_app. Qed.

Lemma spawns_app a b : spawns (a ++ b) = spawns a ++ spawns b.
Proof. apply flat_map_app. Qed.

(** One turn of the loop of [stop_all], event by event. *)
Lemma stop_turn_events process s :
  exists evs,
    try_except
      (request (Terminate process) (fun s => terminate os s process) ;;
       request (Wait process 3) (fun s => wait os s process 3))
      (fun _ =>
         try_except
           (request (Kill process) (fun s => kill os s process))
           (fun _ => ret tt)) s = (Ok tt, with_trace s evs)
    /\ stop_events process evs
    /\ (obedient os -> evs = [Terminate process; Wait process 3])
    /\ ((forall st, wait os st process 3 <> None) -> In process (killed evs)).
Proof.
  unfold try_except, bind. rewrite request_run.
  destruct (terminate os s process) eqn:Ht; cbv iota beta; rewrite request_run.
  - exists [Terminate process; Kill process]. split; [|split; [|split]].
    + destruct (kill os _ process); now rewrite !with_trace_app.
    + right; right. reflexivity.
    + intros [Hobey _]. rewrite Hobey in Ht. discriminate.
    + intros _. cbn. auto.
  - destruct (wait os _ process 3) eqn:Hw; cbv iota beta.
    + exists [Terminate process; Wait process 3; Kill process].
      split; [|split; [|split]].
      * rewrite request_run.
        destruct (kill os _ process); now rewrite !with_trace_app.
      * right; left. reflexivity.
      * intros [_ Hobey]. rewrite Hobey in Hw. discriminate.
      * intros _. cbn. auto.
    + exists [Terminate process; Wait process 3]. split; [|split; [|split]].
      * now rewrite !with_trace_app.
      * left. reflexivity.
      * reflexivity.
      * intros Hnever. now destruct (Hnever _ Hw).
Qed.

(** The loop of [stop_all]: one group of events per process, in order. *)
Lemma stop_loop_events ps s :
  exists evs,
    for_each ps
      (fun process =>
         try_except
           (request (Terminate process) (fun s => terminate os s process) ;;
            request (Wait process 3) (fun s => wait os s process 3))
           (fun _ =>
              try_except
                (request (Kill process) (fun s => kill os s process))
                (fun _ => ret tt))) s = (Ok tt, with_trace s evs)
    /\ terminated evs = ps
    /\ incl (killed evs) ps
    /\ execs evs = [] /\ spawns evs = []
    /\ (obedient os -> evs = flat_map (fun p => [Terminate p; Wait p 3]) ps)
    /\ (forall p, In p ps -> (forall st, wait os st p 3 <> None) ->
                  In p (killed evs)).
Proof.
  revert s. induction ps as [|p ps IH]; intros s.
  - exists []. cbn. rewrite with_trace_nil.
    repeat split; try reflexivity; try easy.
  - destruct (stop_turn_events p s) as [evs1 [Hrun1 [Hev1 [Hob1 Hkill1]]]].
    destruct (IH (with_trace s evs1))
      as [evs2 [Hrun2 [Ht2 [Hk2 [He2 [Hs2 [Hob2 Hkill2]]]]]]].
    exists (evs1 ++ evs2). cbn [for_each].
    rewrite (bind_ok _ _ _ _ _ Hrun1), Hrun2, with_trace_app.
    rewrite terminated_app, killed_app, execs_app, spawns_app, Ht2, He2, Hs2.
    split; [reflexivity|].
    assert (Hshape : terminated evs1 = [p] /\ incl (killed evs1) [p]
                     /\ execs evs1 = [] /\ spawns evs1 = []).
    { destruct Hev1 as [-> | [-> | ->]]; cbn; repeat split;
        try apply incl_nil_l; try apply incl_refl. }
    destruct Hshape as [-> [Hk1 [-> ->]]].
    repeat split; try reflexivity.
    + apply incl_app.
      * intros x Hx. apply Hk1 in Hx. destruct Hx as [<-|[]]. now left.
      * intros x Hx. right. now apply Hk2.
    + intros Hob. rewrite (Hob1 Hob), (Hob2 Hob). reflexivity.
    + intros q [<-|Hq] Hnever; apply in_or_app.
      * left. now apply Hkill1.
      * right. now apply Hkill2.
Qed.

(** [stop_all], event by event. *)
Lemma stop_all_events s :
  exists evs,
    stop_all os s
    = (Ok tt, State (wallpapers s) [] (library_file s) (next_handle s)
                    (trace s ++ evs))
    /\ terminated evs = active_processes s
    /\ incl (killed evs) (active_processes s)
    /\ execs evs = [] /\ spawns evs = []
    /\ (obedient os -> killed evs = [])
    /\ (forall p, In p (active_processes s) ->
                  (forall st, wait os st p 3 <> None) -> In p (killed evs)).
Proof.
  unfold stop_all. rewrite bind_get_state.
  destruct (active_processes s) as [|p ps] eqn:Hps.
  - exists []. unfold ret. rewrite app_nil_r.
    repeat split; try reflexivity; try easy.
    destruct s; simpl in *. now subst.
  - rewrite bind_print.
    destruct (stop_loop_events (p :: ps)
                (with_trace s [Say (MsgStopping (List.length (p :: ps)))]))
      as [evs [Hrun [Ht [Hk [He [Hsp [Hob Hkill]]]]]]].
    exists ([Say (MsgStopping (List.length (p :: ps)))] ++ evs
              ++ [Say MsgStopped]).
    rewrite (bind_ok _ _ _ _ _ Hrun).
    rewrite !terminated_app, !killed_app, !execs_app, !spawns_app.
    cbn [terminated killed execs spawns flat_map app].
    rewrite !app_nil_r, Ht, He, Hsp.
    split.
    { unfold bind, set_active_processes, print, emit, with_trace. cbn.
      rewrite <- !app_assoc. reflexivity. }
    repeat split; try assumption.
    intros Hobey. rewrite (Hob Hobey). clear.
    induction (p :: ps) as [|q qs IHq]; [reflexivity | exact IHq].
Qed.

End ManagerEvents.

(** Splits the innermost test of an answer in the goal. *)
Ltac split_inner_answer :=
  match goal with
  | |- context [match ?x with _ => _ end] =>
      lazymatch x with
      | context [match _ with _ => _ end] => fail
      | _ => destruct x eqn:?
      end
  end.

Lemma quiet_events_have_no_process (evs : list event) :
  Forall is_say_or_exec evs ->
  terminated evs = [] /\ killed evs = [] /\ spawns evs = [].
Proof.
  induction 1 as [|e evs He _ [IH1 [IH2 IH3]]]; [now repeat split|].
  destruct e; try contradiction; cbn; now rewrite ?IH1, ?IH2, ?IH3.
Qed.

Lemma say_events_run_nothing (evs : list event) :
  Forall is_say evs ->
  Forall is_say_or_exec evs /\ execs evs = [].
Proof.
  induction 1 as [|e evs He _ [IH1 IH2]]; [now split|].
  destruct e; try contradiction. split; [now constructor | exact IH2].
Qed.

Section SetWallpaperEvents.

Variable os : env.

(** X11.  [_set_image_wallpaper] runs at most one command and never
    raises: [feh --bg-fill path] when [/usr/bin/feh] exists, otherwise
    [gsettings set org.gnome.desktop.background picture-uri file://path]
    (the path appended as it is) when [/usr/bin/gsettings] exists, and no
    command at all when neither does. *)
Theorem image_tool_choice p s :
  outcome (_set_image_wallpaper os p) s = Ok tt
  /\ execs (added (trace s) (trace (final (_set_image_wallpaper os p) s)))
     = match stat os (with_trace s [Say MsgImageSetting]) "/usr/bin/feh" with
       | Found => [["feh"; "--bg-fill"; p]]
       | _ =>
           match stat os (with_trace s [Say MsgImageSetting])
                      "/usr/bin/gsettings" with
           | Found => [["gsettings"; "set"; "org.gnome.desktop.background";
                        "picture-uri"; ("file://" ++ p)%string]]
           | _ => []
           end
       end.
Proof.
  unfold outcome, final, added, _set_image_wallpaper, try_except, bind, print,
    os_path_exists, subprocess_run, decode_stderr, get_state, ret, raise,
    lift, emit, with_trace.
  cbn.
  repeat split_inner_answer; cbn;
    rewrite <- ?app_assoc, skipn_app, skipn_all, Nat.sub_diag; cbn;
    split; reflexivity.
Qed.

End SetWallpaperEvents.

Section SetWallpaperTrace.

Variable os : env.

(** X7.  [stop_all] sends [terminate] to every tracked process exactly
    once, in the order of the list, and kills no process that was not
    tracked.  When every terminate and wait is answered without an error
    nothing is killed; a process whose wait always fails (it does not exit
    within the three seconds) is killed.  No command is run or started. *)
Theorem stop_all_reaches_each s :
  terminated (added (trace s) (trace (final (stop_all os) s)))
  = active_processes s
  /\ incl (killed (added (trace s) (trace (final (stop_all os) s))))
          (active_processes s)
  /\ (obedient os ->
      killed (added (trace s) (trace (final (stop_all os) s))) = [])
  /\ (forall p, In p (active_processes s) ->
                (forall st, wait os st p 3 <> None) ->
                In p (killed (added (trace s)
                                    (trace (final (stop_all os) s)))))
  /\ execs (added (trace s) (trace (final (stop_all os) s))) = []
  /\ spawns (added (trace s) (trace (final (stop_all os) s))) = [].
Proof.
  unfold final.
  destruct (stop_all_events os s)
    as [evs [-> [Ht [Hk [He [Hs [Hob Hkill]]]]]]].
  cbn [snd trace]. unfold added.
  rewrite skipn_app, skipn_all, Nat.sub_diag. cbn [skipn app].
  repeat split; assumption.
Qed.

(** [set_wallpaper] on a record with a string path, event by event: the
    three opening lines, the events of [stop_all], the events of the
    branch of the kind, and the closing line. *)
Lemma set_wallpaper_events config p s :
  path config = PStr p ->
  exists stop_evs branch_evs,
    outcome (set_wallpaper os config) s = Ok tt
    /\ trace (final (set_wallpaper os config) s)
       = trace s
           ++ [Say (MsgSetting (PurePath.name p));
               Say (MsgType (value (wallpaper_type config)));
               Say (MsgMonitor (is_minus_one (monitor_id config))
                               (monitor_id config))]
           ++ stop_evs ++ branch_evs ++ [Say MsgApplied]
    /\ terminated stop_evs = active_processes s
    /\ incl (killed stop_evs) (active_processes s)
    /\ execs stop_evs = [] /\ spawns stop_evs = []
    /\ terminated branch_evs = [] /\ killed branch_evs = []
    /\ match wallpaper_type config with
       | IMAGE =>
           Forall is_say_or_exec branch_evs
           /\ active_processes (final (set_wallpaper os config) s) = []
           /\ next_handle (final (set_wallpaper os config) s) = next_handle s
       | WEB =>
           Forall is_say branch_evs
           /\ active_processes (final (set_wallpaper os config) s) = []
           /\ next_handle (final (set_wallpaper os config) s) = next_handle s
       | STREAM =>
           branch_evs = []
           /\ active_processes (final (set_wallpaper os config) s) = []
           /\ next_handle (final (set_wallpaper os config) s) = next_handle s
       | VIDEO =>
           match popen os (at_launch os config s) (mpv_cmd p) with
           | None =>
               branch_evs = [Say MsgVideoStarting; Say MsgVideoLaunching;
                             Spawn (mpv_cmd p);
                             Say (MsgVideoStarted (next_handle s))]
               /\ active_processes (final (set_wallpaper os config) s)
                  = [next_handle s]
               /\ next_handle (final (set_wallpaper os config) s)
                  = S (next_handle s)
           | Some e =>
               branch_evs = [Say MsgVideoStarting; Say MsgVideoLaunching;
                             Spawn (mpv_cmd p)] ++ video_failure e
               /\ active_processes (final (set_wallpaper os config) s) = []
               /\ next_handle (final (set_wallpaper os config) s)
                  = next_handle s
           end
       end.
Proof.
  intros Hp. unfold outcome, final, at_launch, final, set_wallpaper.
  rewrite Hp. cbn [as_path].
  rewrite !bind_lift_ok, !bind_print, !with_trace_app. cbn [app].
  match goal with
  | |- context [bind (stop_all os) _ ?st] =>
      destruct (stop_all_events os st)
        as [stop_evs [Hstop [Ht [Hk [He [Hs _]]]]]]
  end.
  rewrite !(bind_ok _ _ _ _ _ Hstop).
  cbn [wallpapers active_processes library_file next_handle trace with_trace]
    in *.
  exists stop_evs.
  destruct (wallpaper_type config).
  - match goal with
    | |- context [bind (_set_image_wallpaper os p) _ ?st] =>
        destruct (image_normal os p st) as [s3 [H3 _]];
        destruct (image_adds os p st) as [evs [Hevs Hall]]
    end.
    rewrite H3 in Hevs. cbn [snd] in Hevs. subst s3.
    destruct (quiet_events_have_no_process _ Hall) as [Hq1 [Hq2 _]].
    exists evs. rewrite (bind_ok _ _ _ _ _ H3). cbn.
    rewrite <- !app_assoc. cbn. repeat split; assumption.
  - rewrite bind_print. unfold print. rewrite !emit_run. cbn [snd].
    rewrite with_trace_app. cbn [app].
    rewrite (bind_ok _ _ _ _ _ (video_run os p _)).
    destruct (popen os _ (mpv_cmd p)) as [e|].
    + exists ([Say MsgVideoStarting; Say MsgVideoLaunching; Spawn (mpv_cmd p)]
                ++ video_failure e).
      cbn [fst snd emit with_trace wallpapers active_processes library_file
           next_handle trace].
      rewrite <- !app_assoc. cbn [app].
      repeat split; try assumption; destruct e; reflexivity.
    + exists [Say MsgVideoStarting; Say MsgVideoLaunching; Spawn (mpv_cmd p);
              Say (MsgVideoStarted (next_handle s))].
      cbn [fst snd emit with_trace wallpapers active_processes library_file
           next_handle trace].
      rewrite <- !app_assoc. cbn [app].
      repeat split; try assumption; reflexivity.
  - match goal with
    | |- context [bind (_set_web_wallpaper os p) _ ?st] =>
        destruct (web_normal os p st) as [s3 [H3 _]];
        destruct (web_adds os p st) as [evs [Hevs Hall]]
    end.
    rewrite H3 in Hevs. cbn [snd] in Hevs. subst s3.
    destruct (say_events_run_nothing _ Hall) as [Hall' _].
    destruct (quiet_events_have_no_process _ Hall') as [Hq1 [Hq2 _]].
    exists evs. rewrite (bind_ok _ _ _ _ _ H3). cbn.
    rewrite <- !app_assoc. cbn. repeat split; assumption.
  - exists []. cbn. rewrite <- !app_assoc. cbn.
    repeat split; assumption.
Qed.

End SetWallpaperTrace.

Section SetWallpaperExtras.

Variable os : env.

Lemma added_app (tr evs : list event) : added tr (tr ++ evs) = evs.
Proof.
  unfold added. rewrite skipn_app, skipn_all, Nat.sub_diag. reflexivity.
Qed.

(** X8.  Whatever the kind of the record and whatever happens afterwards,
    [set_wallpaper] first sends [terminate] to every process that was
    tracked, once each and in order, and kills none but those. *)
Theorem set_wallpaper_stops_previous config p s :
  path config = PStr p ->
  terminated (added (trace s) (trace (final (set_wallpaper os config) s)))
  = active_processes s
  /\ incl (killed (added (trace s)
                         (trace (final (set_wallpaper os config) s))))
          (active_processes s).
Proof.
  intros Hp.
  destruct (set_wallpaper_events os config p s Hp)
    as [stop_evs [branch_evs [_ [-> [Ht [Hk [_ [_ [Hbt [Hbk _]]]]]]]]]].
  rewrite added_app.
  rewrite !terminated_app, !killed_app, Hbt, Hbk, Ht.
  cbn [terminated killed flat_map app]. rewrite !app_nil_r.
  split; [reflexivity | exact Hk].
Qed.

(** X9.  After [set_wallpaper] at most one process is tracked, and none
    unless the record is a video; the tracked handle is one that was
    created, whatever was tracked before. *)
Theorem set_wallpaper_tracks_at_most_one config p s :
  path config = PStr p ->
  List.length (active_processes (final (set_wallpaper os config) s)) <= 1
  /\ (wallpaper_type config <> VIDEO ->
      active_processes (final (set_wallpaper os config) s) = [])
  /\ tracked_ok (final (set_wallpaper os config) s).
Proof.
  intros Hp. unfold tracked_ok.
  destruct (set_wallpaper_events os config p s Hp)
    as [stop_evs [branch_evs [_ [_ [_ [_ [_ [_ [_ [_ Hkind]]]]]]]]]].
  destruct (wallpaper_type config).
  - destruct Hkind as [_ [-> _]]. cbn. repeat split; auto.
  - destruct (popen os _ (mpv_cmd p)); destruct Hkind as [_ [-> ->]]; cbn.
    + repeat split; auto.
    + repeat split; auto. congruence.
  - destruct Hkind as [_ [-> _]]. cbn. repeat split; auto.
  - destruct Hkind as [_ [-> _]]. cbn. repeat split; auto.
Qed.

(** X10.  [set_wallpaper] always ends by printing the line that the
    wallpaper was applied, also when it was not: when the video player
    cannot be started, the lines of the failure are printed, then the line
    of success, and nothing is tracked. *)
Theorem set_wallpaper_reports_success config p s :
  path config = PStr p ->
  (exists evs, trace (final (set_wallpaper os config) s)
               = trace s ++ evs ++ [Say MsgApplied])
  /\ (wallpaper_type config = VIDEO ->
      forall e, popen os (at_launch os config s) (mpv_cmd p) = Some e ->
                active_processes (final (set_wallpaper os config) s) = []
                /\ exists evs, trace (final (set_wallpaper os config) s)
                               = trace s ++ evs ++ video_failure e
                                   ++ [Say MsgApplied]).
Proof.
  intros Hp.
  destruct (set_wallpaper_events os config p s Hp)
    as [stop_evs [branch_evs [_ [Htr [_ [_ [_ [_ [_ [_ Hkind]]]]]]]]]].
  split.
  - exists ([Say (MsgSetting (PurePath.name p));
             Say (MsgType (value (wallpaper_type config)));
             Say (MsgMonitor (is_minus_one (monitor_id config))
                             (monitor_id config))]
              ++ stop_evs ++ branch_evs).
    rewrite Htr. now rewrite <- !app_assoc.
  - intros Hv e He. rewrite Hv, He in Hkind. destruct Hkind as [-> [-> _]].
    split; [reflexivity|].
    exists ([Say (MsgSetting (PurePath.name p));
             Say (MsgType (value (wallpaper_type config)));
             Say (MsgMonitor (is_minus_one (monitor_id config))
                             (monitor_id config))]
              ++ stop_evs
              ++ [Say MsgVideoStarting; Say MsgVideoLaunching;
                  Spawn (mpv_cmd p)]).
    rewrite Htr. now rewrite <- !app_assoc.
Qed.

(** X12.  [set_wallpaper] starts a process for a video record only, and
    then exactly once, with the command line of the player; a video, web
    or stream record runs no command. *)
Theorem set_wallpaper_tool_by_kind config p s :
  path config = PStr p ->
  spawns (added (trace s) (trace (final (set_wallpaper os config) s)))
  = match wallpaper_type config with
    | VIDEO => [mpv_cmd p]
    | _ => []
    end
  /\ (wallpaper_type config <> IMAGE ->
      execs (added (trace s) (trace (final (set_wallpaper os config) s)))
      = []).
Proof.
  intros Hp.
  destruct (set_wallpaper_events os config p s Hp)
    as [stop_evs [branch_evs [_ [-> [_ [_ [He [Hs [_ [_ Hkind]]]]]]]]]].
  rewrite added_app. rewrite !spawns_app, !execs_app, He, Hs.
  cbn [spawns execs flat_map app]. rewrite !app_nil_r.
  destruct (wallpaper_type config).
  - destruct Hkind as [Hall _].
    destruct (quiet_events_have_no_process _ Hall) as [_ [_ ->]].
    split; [reflexivity | congruence].
  - destruct (popen os _ (mpv_cmd p)) as [e|]; destruct Hkind as [-> _].
    + split; [|intros _]; destruct e; reflexivity.
    + split; reflexivity.
  - destruct Hkind as [Hall _].
    destruct (say_events_run_nothing _ Hall) as [Hall' ->].
    destruct (quiet_events_have_no_process _ Hall') as [_ [_ ->]].
    split; reflexivity.
  - destruct Hkind as [-> _]. split; reflexivity.
Qed.

End SetWallpaperExtras.

Lemma set_wallpaper_stops_previous_witness :
  terminated (added (trace busy_state)
                    (trace (final (set_wallpaper bare_system clip) busy_state)))
  = [3; 4].
Proof.
  exact (proj1 (set_wallpaper_stops_previous bare_system clip
                  "/home/pi/Videos/waves.mp4" busy_state eq_refl)).
Defined.

Lemma set_wallpaper_tracks_at_most_one_witness :
  List.length
    (active_processes (final (set_wallpaper full_system clip) busy_state)) <= 1.
Proof.
  exact (proj1 (set_wallpaper_tracks_at_most_one full_system clip
                  "/home/pi/Videos/waves.mp4" busy_state eq_refl)).
Defined.

Lemma set_wallpaper_reports_success_witness :
  exists evs,
    trace (final (set_wallpaper bare_system clip) busy_state)
    = trace busy_state ++ evs ++ [Say MsgApplied].
Proof.
  exact (proj1 (set_wallpaper_reports_success bare_system clip
                  "/home/pi/Videos/waves.mp4" busy_state eq_refl)).
Defined.

Lemma set_wallpaper_tool_by_kind_witness :
  spawns (added (trace busy_state)
                (trace (final (set_wallpaper bare_system clip) busy_state)))
  = [mpv_cmd "/home/pi/Videos/waves.mp4"].
Proof.
  exact (proj1 (set_wallpaper_tool_by_kind bare_system clip
                  "/home/pi/Videos/waves.mp4" busy_state eq_refl)).
Defined.

(* ================================================================== *)
(** * Properties of the command line *)

Lemma cbind_ok {A B : Type} (c : C A) (k : A -> C B) q a q' :
  c q = (Ok a, q') -> cbind c k q = k a q'.
Proof. intros H. unfold cbind. now rewrite H. Qed.


Section MainProperties.

Variable os : env.
Variable PYQT_AVAILABLE : bool.
Variable gui_start : C unit.
Variable gui_exec : C Z.


(** Without [--version], [main] first makes the library and the
    manager. *)
Lemma main_starts args q :
  arg_version args = false ->
  main os PYQT_AVAILABLE gui_start gui_exec args q
  = (if arg_list args then
       echo LineAvailable ;;
       (fun q =>
          cfor_each (enumerate (wallpapers (core q)))
            (fun iw => echo (LineWallpaper (fst iw) (path (snd iw))
                               (value (wallpaper_type (snd iw))))) q) ;;
       cret 0%Z
     else
       match given_path args with
       | Some p =>
           config <- call (add_wallpaper p None) ;;
           config <- call (assign_monitor_id config (PInt (arg_monitor args))) ;;
           call (set_wallpaper os config) ;;
           cret 0%Z
       | None =>
           if arg_pause args then call (pause_all os) ;; cret 0%Z
           else if arg_resume args then call (resume_all os) ;; cret 0%Z
           else if arg_stop args then call (stop_all os) ;; cret 0%Z
           else if PYQT_AVAILABLE then
             ctry (echo LineLaunchingGui ;;
                   gui_start ;;
                   echo LineGuiLaunched ;;
                   echo LineEnjoy ;;
                   gui_exec)
                  (fun e => echo (LineGuiError e) ;; cret 1%Z)
           else
             echo LineNoPyQt ;; echo LineNormal ;; echo LineAfterInstall ;;
             echo LineCliAvailable ;; echo LineUsageVideo ;;
             echo LineUsageWeb ;; echo LineUsageList ;;
             echo LineUsageVersion ;; cret 0%Z
       end)%cli (started q).
Proof.
  intros Hv. unfold main. rewrite Hv.
  unfold cbind at 1. unfold call at 1. rewrite library_init_state.
  cbn [fst snd]. unfold cbind at 1. unfold call at 1.
  unfold WallpaperManager_init at 1 2, set_active_processes.
  cbn [fst snd core console wallpapers active_processes library_file
       next_handle trace].
  unfold cbind at 1. unfold echo at 1.
  cbn [core console trace]. reflexivity.
Qed.


End MainProperties.


Lemma enumerate_snd {A : Type} (xs : list A) : map snd (enumerate xs) = xs.
Proof.
  unfold enumerate. generalize 0.
  induction xs as [|x xs IH]; intros n; [reflexivity|].
  cbn. now rewrite IH.
Qed.

Section MainTheorems.

Variable os : env.
Variable PYQT_AVAILABLE : bool.
Variable gui_start : C unit.
Variable gui_exec : C Z.




(** X14.  [--pause], [--resume] and [--stop] given on the command line
    reach no process: [main] makes a new manager, which tracks nothing,
    so no signal, terminate, wait or kill is sent; the library file is
    left as it is and the result is 0. *)
Theorem main_controls_reach_nothing args q :
  arg_version args = false ->
  arg_list args = false ->
  given_path args = None ->
  (arg_pause args || arg_resume args || arg_stop args)%bool = true ->
  fst (main os PYQT_AVAILABLE gui_start gui_exec args q) = Ok 0%Z
  /\ forallb (fun e => negb (touches_process e))
             (added (trace (core q))
                    (trace (core (snd (main os PYQT_AVAILABLE gui_start
                                            gui_exec args q))))) = true
  /\ active_processes
       (core (snd (main os PYQT_AVAILABLE gui_start gui_exec args q))) = []
  /\ library_file
       (core (snd (main os PYQT_AVAILABLE gui_start gui_exec args q)))
     = library_file (core q).
Proof.
  intros Hv Hl Hp Hflag. rewrite (main_starts _ _ _ _ _ _ Hv), Hl, Hp.
  assert (Hload : forallb (fun e => negb (touches_process e))
                          (load_report (library_file (core q))) = true).
  { unfold load_report. now destruct (file_error _). }
  destruct (arg_pause args).
  - unfold cbind, call, cret. rewrite pause_all_run.
    cbn [fst snd core started with_trace trace active_processes library_file
         map app List.length].
    repeat split. rewrite <- ?app_assoc, added_app, !forallb_app, Hload.
    reflexivity.
  - destruct (arg_resume args).
    + unfold cbind, call, cret. rewrite resume_all_run.
      cbn [fst snd core started with_trace trace active_processes library_file
           map app List.length].
      repeat split. rewrite <- ?app_assoc, added_app, !forallb_app, Hload.
      reflexivity.
    + destruct (arg_stop args); [|discriminate].
      unfold cbind, call, cret.
      destruct (stop_all_run os (core (started q))) as [evs [-> Hnil]].
      rewrite (Hnil eq_refl).
      cbn [fst snd core started trace active_processes library_file].
      repeat split. rewrite app_nil_r, <- ?app_assoc, added_app, !forallb_app.
      now rewrite Hload.
Qed.



End MainTheorems.


Lemma main_controls_reach_nothing_witness :
  fst (main full_system true idle_gui_start idle_gui_exec
            (MkArgs None (-1) false false true false false false)
            (fresh_process one_record_file)) = Ok 0%Z.
Proof.
  exact (proj1 (main_controls_reach_nothing full_system true idle_gui_start
                  idle_gui_exec
                  (MkArgs None (-1) false false true false false false)
                  (fresh_process one_record_file)
                  eq_refl eq_refl eq_refl eq_refl)).
Defined.


(** X17.  [load_library] reads five keys of a stored object and nothing
    else: two objects that agree on [path], [type], [monitor_id],
    [properties] and [enabled] decode alike, so any other member of a
    stored object is dropped on loading. *)
Theorem decode_item_reads_five_keys items items' :
  (forall k, In k record_keys -> dict_lookup items k = dict_lookup items' k) ->
  decode_item (PDict items) = decode_item (PDict items').
Proof.
  intros H. rewrite !decode_item_dict. unfold field_or.
  rewrite (H "path") by (simpl; auto).
  rewrite (H "type") by (simpl; auto).
  rewrite (H "monitor_id") by (simpl; auto).
  rewrite (H "properties") by (simpl; auto 6).
  rewrite (H "enabled") by (simpl; auto 6).
  reflexivity.
Qed.

Lemma decode_item_reads_five_keys_witness :
  decode_item (PDict (minimal_item ++ [("author", PStr "pi")]))
  = decode_item (PDict minimal_item).
Proof.
  apply (decode_item_reads_five_keys
           (minimal_item ++ [("author", PStr "pi")]) minimal_item).
  intros k Hk. unfold record_keys in Hk. simpl in Hk.
  destruct Hk as [<-|[<-|[<-|[<-|[<-|[]]]]]]; reflexivity.
Defined.

(* ================================================================== *)
(** * What [set_wallpaper] catches and reports *)

Section SetWallpaperReports.

Variable os : env.





End SetWallpaperReports.


